(** * PrimeVista: upload pipeline, form handlers and schema of [app.py]

    A shallow embedding of the single source file of the site.  Python
    values are modelled as follows.

    - [str] is [string], read as a sequence of code points below 256;
    - [int] is [Z]; [float] is IEEE-754 binary64, computed with the
      executable operations of [SpecFloat] at precision 53;
    - an exception is an [outcome] other than [Returned];
    - the upload directory is a finite map from file names to file
      contents, the database four lists of rows with their
      AUTOINCREMENT counters, [print] appends to [stdout], [flash] to
      the session's message list;
    - what the process cannot control (the two [uuid4] draws, the clock,
      which disk or codec operation fails) is an explicit [Env];
    - the host is a POSIX one: [os.sep] is the slash, there is no
      [os.path.altsep], [os.name] is not [nt] and file names are compared
      character by character. *)

From Stdlib Require Import ZArith Ascii String Bool Lia SpecFloat.
From stdpp Require Import base option list gmap strings.

Local Open Scope Z_scope.

(* ================================================================== *)
(** ** Exceptions *)

Inductive exn :=
| ZeroDivisionError
| OverflowError
| ValueError
| OSError
| FileNotFoundError
| UnidentifiedImageError
| DecompressionBombError
| OperationalError.

Inductive outcome (A : Type) :=
| Returned (a : A)
| Raised (e : exn).
Arguments Returned {A} a.
Arguments Raised {A} e.

Definition returns {A} (o : outcome A) : bool :=
  match o with Returned _ => true | Raised _ => false end.

(* ================================================================== *)
(** ** Python text operations *)

Module PyStr.

Definition chars : string -> list ascii := list_ascii_of_string.
Definition text : list ascii -> string := string_of_list_ascii.

Definition code (c : ascii) : Z := Z.of_N (N_of_ascii c).

Definition between (lo hi : Z) (c : ascii) : bool :=
  (lo <=? code c) && (code c <=? hi).

(** [str.isspace] on one code point below 256: TAB..CR, FS..US, SPACE,
    NEL and NBSP. *)
Definition isspace (c : ascii) : bool :=
  between 9 13 c || between 28 32 c || (code c =? 133) || (code c =? 160).

(** [str.lower] on one code point below 256: A..Z and the Latin-1
    capitals (all of C0..DE but the multiplication sign D7) move up by
    32. *)
Definition lower_char (c : ascii) : ascii :=
  if between 65 90 c || (between 192 222 c && negb (code c =? 215))
  then ascii_of_N (Z.to_N (code c + 32))
  else c.

Definition lower (s : string) : string := text (map lower_char (chars s)).

Fixpoint lstrip_by (p : ascii -> bool) (l : list ascii) : list ascii :=
  match l with
  | [] => []
  | c :: l' => if p c then lstrip_by p l' else l
  end.

Definition rstrip_by (p : ascii -> bool) (l : list ascii) : list ascii :=
  rev (lstrip_by p (rev l)).

Definition strip_by (p : ascii -> bool) (l : list ascii) : list ascii :=
  rstrip_by p (lstrip_by p l).

(** [s.strip()] *)
Definition strip (s : string) : string := text (strip_by isspace (chars s)).

(** [s.strip(cs)] *)
Definition strip_chars (cs : list ascii) (s : string) : string :=
  text (strip_by (fun c => bool_decide (c ∈ cs)) (chars s)).

(** Truth value of a [str]. *)
Definition truthy (s : string) : bool :=
  match s with EmptyString => false | _ => true end.

(** [s.rfind(c)], [-1] when [c] does not occur. *)
Fixpoint rfind_from (c : ascii) (l : list ascii) (i acc : Z) : Z :=
  match l with
  | [] => acc
  | x :: l' => rfind_from c l' (i + 1) (if Ascii.eqb x c then i else acc)
  end.

Definition rfind (c : ascii) (s : string) : Z := rfind_from c (chars s) 0 (-1).

(** [s[:i]] and [s[i:]] for [0 <= i]. *)
Definition upto (i : Z) (s : string) : string := text (take (Z.to_nat i) (chars s)).
Definition from (i : Z) (s : string) : string := text (drop (Z.to_nat i) (chars s)).

(** [s.split()]: the maximal runs of non-space characters. *)
Fixpoint split_go (cur : list ascii) (l : list ascii) : list (list ascii) :=
  match l with
  | [] => match cur with [] => [] | _ => [rev cur] end
  | c :: l' =>
      if isspace c
      then match cur with
           | [] => split_go [] l'
           | _ => rev cur :: split_go [] l'
           end
      else split_go (c :: cur) l'
  end.

Definition split (l : list ascii) : list (list ascii) := split_go [] l.

(** [sep.join(parts)] *)
Fixpoint join (sep : list ascii) (parts : list (list ascii)) : list ascii :=
  match parts with
  | [] => []
  | [p] => p
  | p :: ps => p ++ sep ++ join sep ps
  end.

End PyStr.

(** The dot, as [os.extsep] and as the separator of [rsplit]. *)
Definition dot : ascii := "."%char.

(* ================================================================== *)
(** ** [werkzeug.utils.secure_filename] and [os.path.splitext] (POSIX) *)

(** The ASCII characters of the compatibility decomposition (NFKD) of one
    code point below 256.  ASCII is its own decomposition.  In the Latin-1
    block an accented letter decomposes into its base letter and combining
    marks, the ordinal indicators into [a] and [o], the superscript digits
    and the vulgar fractions into their digits (the fraction slash is not
    ASCII), NBSP and the four spacing marks (diaeresis, macron, acute,
    cedilla) into a space followed by a mark; the other code points,
    among them the C1 controls, the signs, AE, ETH, O WITH STROKE, THORN,
    SHARP S and MICRO, keep nothing in ASCII. *)
Definition nfkd_ascii (c : ascii) : string :=
  let n := PyStr.code c in
  if n <? 128 then String c EmptyString
  else if bool_decide (n ∈ [160; 168; 175; 180; 184]) then " "
  else if n =? 170 then "a"
  else if n =? 178 then "2"
  else if n =? 179 then "3"
  else if n =? 185 then "1"
  else if n =? 186 then "o"
  else if n =? 188 then "14"
  else if n =? 189 then "12"
  else if n =? 190 then "34"
  else if PyStr.between 192 197 c then "A"
  else if n =? 199 then "C"
  else if PyStr.between 200 203 c then "E"
  else if PyStr.between 204 207 c then "I"
  else if n =? 209 then "N"
  else if PyStr.between 210 214 c then "O"
  else if PyStr.between 217 220 c then "U"
  else if n =? 221 then "Y"
  else if PyStr.between 224 229 c then "a"
  else if n =? 231 then "c"
  else if PyStr.between 232 235 c then "e"
  else if PyStr.between 236 239 c then "i"
  else if n =? 241 then "n"
  else if PyStr.between 242 246 c then "o"
  else if PyStr.between 249 252 c then "u"
  else if (n =? 253) || (n =? 255) then "y"
  else "".

(** [unicodedata.normalize("NFKD", s).encode("ascii", "ignore")] on a text
    of code points below 256: no such code point is a combining mark and
    every decomposition starts with a starter, so the marks are never
    reordered across characters and the result is the concatenation of
    the ASCII parts. *)
Definition ascii_fold (l : list ascii) : list ascii :=
  List.flat_map (fun c => PyStr.chars (nfkd_ascii c)) l.

(** The character class [A-Za-z0-9_.-] kept by [_filename_ascii_strip_re]. *)
Definition filename_char (c : ascii) : bool :=
  PyStr.between 65 90 c || PyStr.between 97 122 c || PyStr.between 48 57 c
  || bool_decide (c ∈ ["_"; "."; "-"]%char).

Definition secure_filename (filename : string) : string :=
  let folded := ascii_fold (PyStr.chars filename) in
  let unslashed := map (fun c => if Ascii.eqb c "/" then " "%char else c) folded in
  let joined := PyStr.join ["_"%char] (PyStr.split unslashed) in
  let kept := filter (fun c => Is_true (filename_char c)) joined in
  PyStr.strip_chars ["."; "_"]%char (PyStr.text kept).

(** [genericpath._splitext] with [sep = "/"], no [altsep]: split at the last
    dot of the last path component unless only dots precede it. *)
Definition splitext (p : string) : string * string :=
  let sepIndex := PyStr.rfind "/" p in
  let dotIndex := PyStr.rfind dot p in
  if (sepIndex <? dotIndex)
     && existsb (fun c => negb (Ascii.eqb c dot))
          (drop (Z.to_nat (sepIndex + 1)) (take (Z.to_nat dotIndex) (PyStr.chars p)))
  then (PyStr.upto dotIndex p, PyStr.from dotIndex p)
  else (p, ""%string).

(* ================================================================== *)
(** ** The extension allow-list *)

Definition ALLOWED_EXTENSIONS : list string := ["png"; "jpg"; "jpeg"; "gif"]%string.

(** ['.' in filename and filename.rsplit('.', 1)[1].lower() in ALLOWED_EXTENSIONS] *)
Definition allowed_file (filename : string) : bool :=
  let i := PyStr.rfind dot filename in
  (0 <=? i) && bool_decide (PyStr.lower (PyStr.from (i + 1) filename) ∈ ALLOWED_EXTENSIONS).

(* ================================================================== *)
(** ** Python floats *)

Module PyFloat.

Definition prec : Z := 53.
Definition emax : Z := 1024.

(** [float(z)]; exact for [|z| < 2^53], which every pixel count is. *)
Definition of_int (z : Z) : spec_float := binary_normalize prec emax z 0 false.

(** [a / b] on two [int]s. *)
Definition truediv (a b : Z) : outcome spec_float :=
  if b =? 0 then Raised ZeroDivisionError
  else Returned (SFdiv prec emax (of_int a) (of_int b)).

(** [a * x] for an [int] and a [float]. *)
Definition int_mul (a : Z) (x : spec_float) : spec_float :=
  SFmul prec emax (of_int a) x.

(** [x > y] *)
Definition gt (x y : spec_float) : bool := SFltb y x.

(** [int(x)]: truncation toward zero. *)
Definition to_int (x : spec_float) : outcome Z :=
  match x with
  | S754_zero _ => Returned 0
  | S754_finite s m e =>
      Returned (cond_Zopp s (if 0 <=? e then Z.shiftl (Zpos m) e
                             else Z.shiftr (Zpos m) (- e)))
  | S754_infinity _ => Raised OverflowError
  | S754_nan => Raised ValueError
  end.

End PyFloat.

(* ================================================================== *)
(** ** Resize and crop geometry (lines 111-131 of [save_and_crop_image]) *)

Definition obind {A B} (o : outcome A) (k : A -> outcome B) : outcome B :=
  match o with
  | Returned a => k a
  | Raised e => Raised e
  end.

(** [(new_width, new_height)] for a [width] x [height] image. *)
Definition new_size (width height target_w target_h : Z) : outcome (Z * Z) :=
  obind (PyFloat.truediv width height) (fun img_ratio =>
  obind (PyFloat.truediv target_w target_h) (fun target_ratio =>
  if PyFloat.gt img_ratio target_ratio then
    let new_height := target_h in
    obind (PyFloat.truediv new_height height) (fun scale =>
    obind (PyFloat.to_int (PyFloat.int_mul width scale)) (fun new_width =>
    Returned (new_width, new_height)))
  else
    let new_width := target_w in
    obind (PyFloat.truediv new_width width) (fun scale =>
    obind (PyFloat.to_int (PyFloat.int_mul height scale)) (fun new_height =>
    Returned (new_width, new_height))))).

(** [(left, top, right, bottom)]; [//] is floor division, as [Z.div] by 2. *)
Definition crop_box (new_width new_height target_w target_h : Z) : Z * Z * Z * Z :=
  let left := (new_width - target_w) / 2 in
  let top := (new_height - target_h) / 2 in
  let right := left + target_w in
  let bottom := top + target_h in
  (left, top, right, bottom).

(** The box lies inside an image of the given size. *)
Definition box_within (box : Z * Z * Z * Z) (w h : Z) : bool :=
  let '(x0, y0, x1, y1) := box in
  (0 <=? x0) && (0 <=? y0) && (x1 <=? w) && (y1 <=? h).

(* ================================================================== *)
(** ** Images, files and rows *)

(** A decoded image; only its size matters here. *)
Record Image := { width : Z; height : Z }.

(** An uploaded part: the client's file name and what its bytes decode to
    ([None] when they are not an image). *)
Record FileStorage := { filename : string; stream : option Image }.

(** What a file of the upload directory holds. *)
Inductive FileData :=
| RawUpload (decoded : option Image)
| JpegFile (quality : Z) (img : Image)
| PartialWrite.

Record Project := {
  project_id : Z;
  project_name : string;
  project_description : string;
  project_image_filename : option string }.

Record Client := {
  client_id : Z;
  client_name : string;
  client_designation : string;
  client_description : string;
  client_image_filename : option string }.

Record Contact := {
  contact_id : Z;
  contact_full_name : string;
  contact_email : string;
  contact_mobile : string;
  contact_city : string;
  contact_created_at : string }.

Record Subscription := {
  subscription_id : Z;
  subscription_email : string;
  subscription_created_at : string }.

(** The four tables in insertion order, each with its [sqlite_sequence]
    counter. *)
Record DB := {
  projects : list Project;
  clients : list Client;
  contacts : list Contact;
  subscriptions : list Subscription;
  projects_seq : Z;
  clients_seq : Z;
  contacts_seq : Z;
  subscriptions_seq : Z }.

Inductive LogLine :=
| ImageProcessingError (e : exn)
| ErrorDeletingImage (e : exn).

Record World := {
  uploads : gmap string FileData;
  stdout : list LogLine;
  db : DB;
  flashes : list (string * string) }.

(** The outcome of a write to disk: done, or failed with or without a
    partial file left behind. *)
Inductive WriteResult := Written | WriteFailed (partial : bool).

Record Env := {
  uuid_final : string;          (* first [uuid4().hex], for [unique_name] *)
  uuid_tmp : string;            (* second [uuid4().hex], for [tmp_name] *)
  utcnow : string;              (* [datetime.utcnow().isoformat()] *)
  save_result : WriteResult;    (* [file_storage.save] *)
  load_ok : bool;               (* pixel data loads in [convert] *)
  resample_ok : bool;           (* [resize] has the memory it needs *)
  encode_result : WriteResult;  (* [img.save] *)
  remove_ok : bool }.           (* [os.remove] *)

(* ================================================================== *)
(** ** Computations: world passing with exceptions *)

Definition M (A : Type) : Type := World -> outcome A * World.

Definition ret {A} (a : A) : M A := fun w => (Returned a, w).

Definition raise {A} (e : exn) : M A := fun w => (Raised e, w).

Definition bind {A B} (m : M A) (k : A -> M B) : M B :=
  fun w =>
    match m w with
    | (Returned a, w') => k a w'
    | (Raised e, w') => (Raised e, w')
    end.

Definition lift {A} (o : outcome A) : M A := fun w => (o, w).

(** [try: body / except Exception as e: handler] *)
Definition try_except {A} (body : M A) (handler : exn -> M A) : M A :=
  fun w =>
    match body w with
    | (Returned a, w') => (Returned a, w')
    | (Raised e, w') => handler e w'
    end.

(** [try: body / except Exception as e: handler / else: orelse]; the
    [else] suite runs outside the protection of the handler. *)
Definition try_except_else {A B} (body : M A) (handler : exn -> M B)
    (orelse : A -> M B) : M B :=
  fun w =>
    match body w with
    | (Returned a, w') => orelse a w'
    | (Raised e, w') => handler e w'
    end.

Declare Scope py_scope.
Delimit Scope py_scope with py.
Notation "x <- m ;; k" := (bind m (fun x => k))
  (at level 100, m at next level, right associativity) : py_scope.
Notation "m ;;; k" := (bind m (fun _ => k))
  (at level 100, right associativity) : py_scope.
Local Open Scope py_scope.

Definition get_uploads : M (gmap string FileData) := fun w => (Returned (uploads w), w).

Definition put_uploads (u : gmap string FileData) : M unit :=
  fun w => (Returned tt,
            {| uploads := u; stdout := stdout w; db := db w; flashes := flashes w |}).

Definition get_db : M DB := fun w => (Returned (db w), w).

Definition put_db (d : DB) : M unit :=
  fun w => (Returned tt,
            {| uploads := uploads w; stdout := stdout w; db := d; flashes := flashes w |}).

Definition print (l : LogLine) : M unit :=
  fun w => (Returned tt,
            {| uploads := uploads w; stdout := stdout w ++ [l]; db := db w;
               flashes := flashes w |}).

(** [flash(message, category)] *)
Definition flash (message category : string) : M unit :=
  fun w => (Returned tt,
            {| uploads := uploads w; stdout := stdout w; db := db w;
               flashes := flashes w ++ [(category, message)] |}).

(* ================================================================== *)
(** ** Disk and Pillow operations *)

(** A write of [data] to [name]: a failed write leaves nothing new or a
    partial file. *)
Definition write_file (r : WriteResult) (name : string) (data : FileData) : M unit :=
  match r with
  | Written => u <- get_uploads ;; put_uploads (<[name := data]> u)
  | WriteFailed false => raise OSError
  | WriteFailed true =>
      u <- get_uploads ;; put_uploads (<[name := PartialWrite]> u) ;;; raise OSError
  end.

(** [file_storage.save(path)] *)
Definition FileStorage_save (env : Env) (f : FileStorage) (name : string) : M unit :=
  write_file (save_result env) name (RawUpload (stream f)).

(** [os.path.exists(path)] *)
Definition os_path_exists (name : string) : M bool :=
  u <- get_uploads ;; ret (bool_decide (is_Some (u !! name))).

(** [os.remove(path)] *)
Definition os_remove (env : Env) (name : string) : M unit :=
  u <- get_uploads ;;
  match u !! name with
  | None => raise FileNotFoundError
  | Some _ => if remove_ok env then put_uploads (delete name u) else raise OSError
  end.

(** [Image.MAX_IMAGE_PIXELS], [int(1024 * 1024 * 1024 // 4 // 3)]. *)
Definition MAX_IMAGE_PIXELS : Z := 89478485.

(** [Image._decompression_bomb_check(size)] raises when
    [max(1, width) * max(1, height)] is above twice the limit (above the
    limit itself it only warns). *)
Definition decompression_bomb (w h : Z) : bool :=
  2 * MAX_IMAGE_PIXELS <? Z.max 1 w * Z.max 1 h.

(** [Image.open(path)]: the size of a picture that is recognised goes
    through the decompression-bomb check. *)
Definition Image_open (name : string) : M Image :=
  u <- get_uploads ;;
  match u !! name with
  | None => raise FileNotFoundError
  | Some (RawUpload (Some img)) | Some (JpegFile _ img) =>
      if decompression_bomb (width img) (height img)
      then raise DecompressionBombError
      else ret img
  | Some (RawUpload None) | Some PartialWrite => raise UnidentifiedImageError
  end.

(** [img.convert('RGB')]: the size is kept; the pixel data is loaded here. *)
Definition Image_convert (env : Env) (img : Image) : M Image :=
  if load_ok env then ret img else raise OSError.

(** [img.resize((w, h), Image.LANCZOS)]: sizes below 1 are refused. *)
Definition Image_resize (env : Env) (img : Image) (w h : Z) : M Image :=
  if (w <? 1) || (h <? 1) then raise ValueError
  else if resample_ok env then ret {| width := w; height := h |}
  else raise OSError.

(** [img.crop((left, top, right, bottom))]: the result has the size of the
    box, which may reach outside the image; a box with [right < left] or
    [bottom < top] is refused, and the size of the box goes through the
    decompression-bomb check. *)
Definition Image_crop (img : Image) (box : Z * Z * Z * Z) : M Image :=
  let '(x0, y0, x1, y1) := box in
  if (x1 <? x0) || (y1 <? y0) then raise ValueError
  else if decompression_bomb (x1 - x0) (y1 - y0) then raise DecompressionBombError
  else ret {| width := x1 - x0; height := y1 - y0 |}.

(** [img.save(path, format='JPEG', quality=q)]: an empty image or a side
    above libjpeg's 65500 is refused and leaves no file. *)
Definition Image_save (env : Env) (img : Image) (name : string) (q : Z) : M unit :=
  if (width img <? 1) || (height img <? 1) then raise ValueError
  else if (65500 <? width img) || (65500 <? height img) then raise OSError
  else write_file (encode_result env) name (JpegFile q img).

(* ================================================================== *)
(** ** [save_and_crop_image] *)

(** The suite of the [try] statement (lines 103-135).  Paths are file names
    relative to the upload folder. *)
Definition try_suite (env : Env) (file_storage : FileStorage)
    (tmp_path final_path : string) (target_w target_h : Z) : M unit :=
  FileStorage_save env file_storage tmp_path ;;;
  img <- Image_open tmp_path ;;
  img <- Image_convert env img ;;
  size <- lift (new_size (width img) (height img) target_w target_h) ;;
  img <- Image_resize env img (fst size) (snd size) ;;
  img <- Image_crop img (crop_box (fst size) (snd size) target_w target_h) ;;
  Image_save env img final_path 90.

(** The clean-up of both paths: [try: if os.path.exists(tmp_path):
    os.remove(tmp_path) / except Exception: pass]. *)
Definition remove_tmp (env : Env) (tmp_path : string) : M unit :=
  try_except
    (present <- os_path_exists tmp_path ;;
     if present then os_remove env tmp_path else ret tt)
    (fun _ => ret tt).

Definition unique_name_of (env : Env) (filename : string) : string :=
  fst (splitext filename) +:+ "_" +:+ uuid_final env +:+ ".jpg".

Definition tmp_name_of (env : Env) (filename : string) : string :=
  fst (splitext filename) +:+ "_" +:+ uuid_tmp env +:+ snd (splitext filename).

Definition save_and_crop_image (env : Env) (file_storage : option FileStorage)
    (target_w target_h : Z) : M (option string) :=
  match file_storage with
  | None => ret None
  | Some upload =>
      if negb (PyStr.truthy (filename upload)) then ret None
      else
        let filename := secure_filename (filename upload) in
        if negb (allowed_file filename) then ret None
        else
          let unique_name := unique_name_of env filename in
          let tmp_name := tmp_name_of env filename in
          try_except_else
            (try_suite env upload tmp_name unique_name target_w target_h)
            (fun e =>
               print (ImageProcessingError e) ;;;
               remove_tmp env tmp_name ;;;
               ret None)
            (fun _ =>
               remove_tmp env tmp_name ;;;
               ret (Some unique_name))
  end.

(* ================================================================== *)
(** ** Requests, responses and SQL statements *)

Inductive Method := GET | POST.

(** A request as a view function reads it: the method, the parsed form and
    the parsed files.  Flask parses the body on the first access to
    [request.form]; a body longer than [MAX_CONTENT_LENGTH] (10 MiB, line
    22) is refused there with status 413 before the view has changed
    anything, and is not a request of this type. *)
Record Request := {
  method : Method;
  form : list (string * string);
  files : list (string * FileStorage) }.

(** [MultiDict.get]: the first value under the key. *)
Fixpoint multidict_get {V} (key : string) (items : list (string * V)) : option V :=
  match items with
  | [] => None
  | (k, v) :: rest => if String.eqb k key then Some v else multidict_get key rest
  end.

(** [request.form.get(key, '')] *)
Definition form_get (req : Request) (key : string) : string :=
  default ""%string (multidict_get key (form req)).

(** [request.files.get(key)] *)
Definition files_get (req : Request) (key : string) : option FileStorage :=
  multidict_get key (files req).

Inductive Page :=
| ProjectsPage (rows : list Project)
| ClientsPage (rows : list Client).

Inductive Response :=
| Redirect (endpoint : string)
| RenderTemplate (page : Page).

Definition status_code (r : Response) : Z :=
  match r with
  | Redirect _ => 302
  | RenderTemplate _ => 200
  end.

(** The id given to a new row of an AUTOINCREMENT table. *)
Definition next_id (seq : Z) (ids : list Z) : Z := foldr Z.max seq ids + 1.

Definition insert_project (name description : string) (image : option string)
    (d : DB) : DB :=
  let id := next_id (projects_seq d) (map project_id (projects d)) in
  {| projects := projects d ++
       [{| project_id := id; project_name := name;
           project_description := description;
           project_image_filename := image |}];
     clients := clients d; contacts := contacts d;
     subscriptions := subscriptions d;
     projects_seq := id; clients_seq := clients_seq d;
     contacts_seq := contacts_seq d; subscriptions_seq := subscriptions_seq d |}.

Definition insert_client (name designation description : string)
    (image : option string) (d : DB) : DB :=
  let id := next_id (clients_seq d) (map client_id (clients d)) in
  {| projects := projects d;
     clients := clients d ++
       [{| client_id := id; client_name := name;
           client_designation := designation;
           client_description := description;
           client_image_filename := image |}];
     contacts := contacts d; subscriptions := subscriptions d;
     projects_seq := projects_seq d; clients_seq := id;
     contacts_seq := contacts_seq d; subscriptions_seq := subscriptions_seq d |}.

Definition insert_contact (full_name email mobile city created_at : string)
    (d : DB) : DB :=
  let id := next_id (contacts_seq d) (map contact_id (contacts d)) in
  {| projects := projects d; clients := clients d;
     contacts := contacts d ++
       [{| contact_id := id; contact_full_name := full_name;
           contact_email := email; contact_mobile := mobile;
           contact_city := city; contact_created_at := created_at |}];
     subscriptions := subscriptions d;
     projects_seq := projects_seq d; clients_seq := clients_seq d;
     contacts_seq := id; subscriptions_seq := subscriptions_seq d |}.

Definition insert_subscription (email created_at : string) (d : DB) : DB :=
  let id := next_id (subscriptions_seq d) (map subscription_id (subscriptions d)) in
  {| projects := projects d; clients := clients d; contacts := contacts d;
     subscriptions := subscriptions d ++
       [{| subscription_id := id; subscription_email := email;
           subscription_created_at := created_at |}];
     projects_seq := projects_seq d; clients_seq := clients_seq d;
     contacts_seq := contacts_seq d; subscriptions_seq := id |}.

(** [DELETE FROM projects WHERE id = ?] *)
Definition delete_project_row (pid : Z) (d : DB) : DB :=
  {| projects := List.filter (fun r => negb (project_id r =? pid)) (projects d);
     clients := clients d; contacts := contacts d;
     subscriptions := subscriptions d;
     projects_seq := projects_seq d; clients_seq := clients_seq d;
     contacts_seq := contacts_seq d; subscriptions_seq := subscriptions_seq d |}.

(** [DELETE FROM clients WHERE id = ?] *)
Definition delete_client_row (cid : Z) (d : DB) : DB :=
  {| projects := projects d;
     clients := List.filter (fun r => negb (client_id r =? cid)) (clients d);
     contacts := contacts d; subscriptions := subscriptions d;
     projects_seq := projects_seq d; clients_seq := clients_seq d;
     contacts_seq := contacts_seq d; subscriptions_seq := subscriptions_seq d |}.

(** [SELECT image_filename FROM projects WHERE id = ?], [fetchone()] *)
Definition select_project (pid : Z) (d : DB) : option Project :=
  List.find (fun r => project_id r =? pid) (projects d).

Definition select_client (cid : Z) (d : DB) : option Client :=
  List.find (fun r => client_id r =? cid) (clients d).

(** [ORDER BY id DESC] *)
Fixpoint insert_desc {A} (key : A -> Z) (x : A) (l : list A) : list A :=
  match l with
  | [] => [x]
  | y :: l' => if key y <? key x then x :: l else y :: insert_desc key x l'
  end.

Definition order_by_id_desc {A} (key : A -> Z) (l : list A) : list A :=
  foldr (insert_desc key) [] l.

(* ================================================================== *)
(** ** Public routes *)

Definition contact_submit (env : Env) (req : Request) : M Response :=
  let full_name := PyStr.strip (form_get req "full_name") in
  let email := PyStr.strip (form_get req "email") in
  let mobile := PyStr.strip (form_get req "mobile") in
  let city := PyStr.strip (form_get req "city") in
  if negb (PyStr.truthy full_name && PyStr.truthy email
           && PyStr.truthy mobile && PyStr.truthy city)
  then
    flash "Please fill all contact form fields." "error" ;;;
    ret (Redirect "index")
  else
    d <- get_db ;;
    put_db (insert_contact full_name email mobile city (utcnow env) d) ;;;
    flash "Thank you! Your contact details have been submitted." "success" ;;;
    ret (Redirect "index").

Definition subscribe (env : Env) (req : Request) : M Response :=
  let email := PyStr.strip (form_get req "email") in
  if negb (PyStr.truthy email)
  then
    flash "Please enter an email address." "error" ;;;
    ret (Redirect "index")
  else
    d <- get_db ;;
    put_db (insert_subscription email (utcnow env) d) ;;;
    flash "Subscribed successfully!" "success" ;;;
    ret (Redirect "index").

(* ================================================================== *)
(** ** Admin routes *)

(** [if image and image.filename]; a [FileStorage] is true when its file
    name is. *)
Definition image_supplied (image : option FileStorage) : bool :=
  match image with
  | Some upload => PyStr.truthy (filename upload)
  | None => false
  end.

(** Lines 221-224 and 268-271: the optional call of the pipeline. *)
Definition store_image (env : Env) (image : option FileStorage) : M (option string) :=
  if image_supplied image then save_and_crop_image env image 450 350
  else ret None.

Definition admin_projects (env : Env) (req : Request) : M Response :=
  match method req with
  | POST =>
      let name := PyStr.strip (form_get req "name") in
      let description := PyStr.strip (form_get req "description") in
      let image := files_get req "image" in
      filename <- store_image env image ;;
      if negb (PyStr.truthy name && PyStr.truthy description)
      then flash "Please provide project name and description." "error"
      else
        d <- get_db ;;
        put_db (insert_project name description filename d) ;;;
        flash "Project added!" "success"
  | GET => ret tt
  end ;;;
  d <- get_db ;;
  ret (RenderTemplate (ProjectsPage (order_by_id_desc project_id (projects d)))).

Definition admin_clients (env : Env) (req : Request) : M Response :=
  match method req with
  | POST =>
      let name := PyStr.strip (form_get req "name") in
      let designation := PyStr.strip (form_get req "designation") in
      let description := PyStr.strip (form_get req "description") in
      let image := files_get req "image" in
      filename <- store_image env image ;;
      if negb (PyStr.truthy name && PyStr.truthy designation
               && PyStr.truthy description)
      then flash "Please provide client name, designation and description." "error"
      else
        d <- get_db ;;
        put_db (insert_client name designation description filename d) ;;;
        flash "Client added!" "success"
  | GET => ret tt
  end ;;;
  d <- get_db ;;
  ret (RenderTemplate (ClientsPage (order_by_id_desc client_id (clients d)))).

(** Lines 245-251 and 292-298: the best-effort removal of a row's image.
    [None] and the empty string are both false. *)
Definition remove_image (env : Env) (image_filename : option string) : M unit :=
  match image_filename with
  | Some path =>
      if PyStr.truthy path then
        present <- os_path_exists path ;;
        if present
        then try_except (os_remove env path) (fun e => print (ErrorDeletingImage e))
        else ret tt
      else ret tt
  | None => ret tt
  end.

Definition delete_project (env : Env) (pid : Z) : M Response :=
  d <- get_db ;;
  match select_project pid d with
  | Some row =>
      remove_image env (project_image_filename row) ;;;
      put_db (delete_project_row pid d) ;;;
      flash "Project deleted." "success"
  | None => ret tt
  end ;;;
  ret (Redirect "admin_projects").

Definition delete_client (env : Env) (cid : Z) : M Response :=
  d <- get_db ;;
  match select_client cid d with
  | Some row =>
      remove_image env (client_image_filename row) ;;;
      put_db (delete_client_row cid d) ;;;
      flash "Client deleted." "success"
  | None => ret tt
  end ;;;
  ret (Redirect "admin_clients").

(* ================================================================== *)
(** ** The schema and [init_db] *)

Module Schema.

Record Column := {
  column_name : string;
  column_type : string;
  not_null : bool;
  primary_key_autoincrement : bool }.

Record Table := { table_name : string; columns : list Column }.

(** The tables of the store file, in creation order. *)
Definition Catalog := list Table.

Inductive Statement :=
| CREATE_TABLE (if_not_exists : bool) (t : Table).

(** SQLite compares identifiers without regard to ASCII case. *)
Definition fold_case (s : string) : string :=
  PyStr.text (map (fun c => if PyStr.between 65 90 c
                            then ascii_of_N (Z.to_N (PyStr.code c + 32)) else c)
                (PyStr.chars s)).

Definition same_name (a b : string) : bool :=
  String.eqb (fold_case a) (fold_case b).

(** The name of a table as SQLite compares it. *)
Definition table_key (t : Table) : string := fold_case (table_name t).

Definition has_table (name : string) (cat : Catalog) : bool :=
  existsb (fun t => same_name (table_name t) name) cat.

Definition execute (s : Statement) (cat : Catalog) : outcome unit * Catalog :=
  match s with
  | CREATE_TABLE if_not_exists t =>
      if has_table (table_name t) cat
      then if if_not_exists then (Returned tt, cat)
           else (Raised OperationalError, cat)
      else (Returned tt, cat ++ [t])
  end.

(** [cursor.executescript]: statement by statement, stopping at the first
    error. *)
Fixpoint executescript (script : list Statement) (cat : Catalog)
    : outcome unit * Catalog :=
  match script with
  | [] => (Returned tt, cat)
  | s :: rest =>
      match execute s cat with
      | (Returned _, cat') => executescript rest cat'
      | (Raised e, cat') => (Raised e, cat')
      end
  end.

Definition id_column : Column :=
  {| column_name := "id"; column_type := "INTEGER"; not_null := false;
     primary_key_autoincrement := true |}.

Definition text_column (name : string) (required : bool) : Column :=
  {| column_name := name; column_type := "TEXT"; not_null := required;
     primary_key_autoincrement := false |}.

Definition projects_table : Table :=
  {| table_name := "projects";
     columns := [id_column; text_column "name" true;
                 text_column "description" true;
                 text_column "image_filename" false] |}.

Definition clients_table : Table :=
  {| table_name := "clients";
     columns := [id_column; text_column "name" true;
                 text_column "designation" true;
                 text_column "description" true;
                 text_column "image_filename" false] |}.

Definition contacts_table : Table :=
  {| table_name := "contacts";
     columns := [id_column; text_column "full_name" true;
                 text_column "email" true; text_column "mobile" true;
                 text_column "city" true; text_column "created_at" true] |}.

Definition subscriptions_table : Table :=
  {| table_name := "subscriptions";
     columns := [id_column; text_column "email" true;
                 text_column "created_at" true] |}.

Definition schema_tables : list Table :=
  [projects_table; clients_table; contacts_table; subscriptions_table].

Definition init_db (cat : Catalog) : outcome unit * Catalog :=
  executescript (map (CREATE_TABLE true) schema_tables) cat.

(** [init_db] run [n] times in a row; a run after a failed one is not
    reached. *)
Fixpoint init_db_times (n : nat) (cat : Catalog) : outcome unit * Catalog :=
  match n with
  | O => (Returned tt, cat)
  | S n' =>
      match init_db cat with
      | (Returned _, cat') => init_db_times n' cat'
      | (Raised e, cat') => (Raised e, cat')
      end
  end.

End Schema.

(* ================================================================== *)
(** ** Sample values *)

Definition empty_db : DB :=
  {| projects := []; clients := []; contacts := []; subscriptions := [];
     projects_seq := 0; clients_seq := 0; contacts_seq := 0;
     subscriptions_seq := 0 |}.

Definition empty_world : World :=
  {| uploads := ∅; stdout := []; db := empty_db; flashes := [] |}.

(** A run in which no disk or codec operation fails. *)
Definition calm_env : Env :=
  {| uuid_final := "0123456789abcdef0123456789abcdef";
     uuid_tmp := "fedcba9876543210fedcba9876543210";
     utcnow := "2024-01-01T00:00:00";
     save_result := Written; load_ok := true; resample_ok := true;
     encode_result := Written; remove_ok := true |}.

(** A run in which [os.remove] fails. *)
Definition failing_remove : Env :=
  {| uuid_final := "0123456789abcdef0123456789abcdef";
     uuid_tmp := "fedcba9876543210fedcba9876543210";
     utcnow := "2024-01-01T00:00:00";
     save_result := Written; load_ok := true; resample_ok := true;
     encode_result := Written; remove_ok := false |}.

(** A run in which the JPEG encoder fails half way through its file. *)
Definition failing_encoder : Env :=
  {| uuid_final := "0123456789abcdef0123456789abcdef";
     uuid_tmp := "fedcba9876543210fedcba9876543210";
     utcnow := "2024-01-01T00:00:00";
     save_result := Written; load_ok := true; resample_ok := true;
     encode_result := WriteFailed true; remove_ok := true |}.

Definition picture (name : string) (w h : Z) : FileStorage :=
  {| filename := name; stream := Some {| width := w; height := h |} |}.

(** A store with one project, its picture on disk. *)
Definition stocked_world : World :=
  {| uploads := {[ "villa_0123456789abcdef0123456789abcdef.jpg"%string
                   := JpegFile 90 {| width := 450; height := 350 |} ]};
     stdout := [];
     db := insert_project "Villa" "Sea view"
             (Some "villa_0123456789abcdef0123456789abcdef.jpg"%string) empty_db;
     flashes := [] |}.

(* ================================================================== *)
(** ** Padding *)

(** Nothing but white space. *)
Definition all_space (s : string) : bool := forallb PyStr.isspace (PyStr.chars s).

(** Two texts that differ only in leading and trailing white space. *)
Definition same_but_padding (a b : string) : Prop :=
  exists l1 r1 l2 r2 core,
    all_space l1 = true /\ all_space r1 = true /\
    all_space l2 = true /\ all_space r2 = true /\
    a = l1 +:+ core +:+ r1 /\ b = l2 +:+ core +:+ r2.

(* ================================================================== *)
(** ** Read-only routes *)

(** What a listing route hands to its template. *)
Inductive View :=
| IndexView (projects : list Project) (clients : list Client)
| DashboardView (projects clients contacts subscriptions : Z)
| ContactsView (contacts : list Contact)
| SubscriptionsView (subs : list Subscription).

(** [SELECT COUNT( * ) AS c FROM t] *)
Definition count {A} (rows : list A) : Z := Z.of_nat (length rows).

Definition index : M View :=
  d <- get_db ;;
  ret (IndexView (order_by_id_desc project_id (projects d))
         (order_by_id_desc client_id (clients d))).


Definition admin_contacts : M View :=
  d <- get_db ;;
  ret (ContactsView (order_by_id_desc contact_id (contacts d))).

Definition admin_subscriptions : M View :=
  d <- get_db ;;
  ret (SubscriptionsView (order_by_id_desc subscription_id (subscriptions d))).

(* ================================================================== *)
(** ** Invariants of the store *)

(** [PRIMARY KEY]: no two rows of a table share an id. *)
Definition keys_unique (d : DB) : Prop :=
  NoDup (map project_id (projects d)) /\
  NoDup (map client_id (clients d)) /\
  NoDup (map contact_id (contacts d)) /\
  NoDup (map subscription_id (subscriptions d)).

(** [AUTOINCREMENT]: no row has an id above the counter of its table. *)
Definition keys_issued (d : DB) : Prop :=
  (forall r, In r (projects d) -> project_id r <= projects_seq d) /\
  (forall r, In r (clients d) -> client_id r <= clients_seq d) /\
  (forall r, In r (contacts d) -> contact_id r <= contacts_seq d) /\
  (forall r, In r (subscriptions d) -> subscription_id r <= subscriptions_seq d).

(** The file names that rows refer to, projects first. *)
Definition image_names (d : DB) : list string :=
  omap project_image_filename (projects d)
  ++ omap client_image_filename (clients d).

(** Every file name a row refers to is a file of the upload directory, and
    no file name is referred to twice. *)
Definition images_consistent (w : World) : Prop :=
  (forall name, In name (image_names (db w)) -> is_Some (uploads w !! name)) /\
  NoDup (image_names (db w)).

(** The rows of a list are in descending order of their keys. *)
Fixpoint descending {A} (key : A -> Z) (l : list A) : Prop :=
  match l with
  | [] => True
  | x :: l' => (forall y, In y l' -> key y <= key x) /\ descending key l'
  end.

(* ================================================================== *)
(** ** The routes that change the store *)

(** One request to a route that writes, as Flask's URL map dispatches it. *)
Inductive Call :=
| call_contact_submit (req : Request)
| call_subscribe (req : Request)
| call_admin_projects (req : Request)
| call_admin_clients (req : Request)
| call_delete_project (pid : Z)
| call_delete_client (cid : Z).

(** The world after the call. *)
Definition run_call (env : Env) (c : Call) (w : World) : World :=
  match c with
  | call_contact_submit req => snd (contact_submit env req w)
  | call_subscribe req => snd (subscribe env req w)
  | call_admin_projects req => snd (admin_projects env req w)
  | call_admin_clients req => snd (admin_clients env req w)
  | call_delete_project pid => snd (delete_project env pid w)
  | call_delete_client cid => snd (delete_client env cid w)
  end.

(** The two names the pipeline would draw for the attached file are new to
    the upload directory and differ from each other. *)
Definition fresh_draws (env : Env) (c : Call) (w : World) : Prop :=
  match c with
  | call_admin_projects req | call_admin_clients req =>
      match files_get req "image" with
      | Some upload =>
          let name := secure_filename (filename upload) in
          uploads w !! tmp_name_of env name = None /\
          uploads w !! unique_name_of env name = None /\
          tmp_name_of env name <> unique_name_of env name
      | None => True
      end
  | _ => True
  end.

(** The worlds the site can be in: the new store, and what a call with
    fresh draws makes of such a world. *)
Inductive reachable : World -> Prop :=
| reachable_new : reachable empty_world
| reachable_call env c w :
    reachable w -> fresh_draws env c w -> reachable (run_call env c w).

(* ================================================================== *)
(** * Properties *)

(** ** Geometry of the resize and of the crop *)

Lemma crop_box_size (nw nh tw th : Z) :
  let '(x0, y0, x1, y1) := crop_box nw nh tw th in
  x1 - x0 = tw /\ y1 - y0 = th.
Proof. unfold crop_box. lia. Qed.

Lemma crop_box_floor (nw nh tw th : Z) :
  let '(x0, y0, _, _) := crop_box nw nh tw th in
  2 * x0 <= nw - tw < 2 * x0 + 2 /\ 2 * y0 <= nh - th < 2 * y0 + 2.
Proof.
  unfold crop_box.
  pose proof (Z.div_mod (nw - tw) 2 ltac:(lia)).
  pose proof (Z.mod_pos_bound (nw - tw) 2 ltac:(lia)).
  pose proof (Z.div_mod (nh - th) 2 ltac:(lia)).
  pose proof (Z.mod_pos_bound (nh - th) 2 ltac:(lia)).
  lia.
Qed.

(** In exact arithmetic the scaled side does reach the target: the floor of
    [height * target_w / width] is at least [target_h] when the picture is
    not wider than the canvas, and likewise for the other branch. *)
Lemma exact_scaling_covers (w h tw th : Z) :
  0 < w -> 0 < h ->
  (w * th <= tw * h -> th <= (h * tw) / w) /\
  (tw * h <= w * th -> tw <= (w * th) / h).
Proof.
  intros Hw Hh. split; intros Hratio; apply Z.div_le_lower_bound; lia.
Qed.



(** ** The pipeline, step by step *)

Ltac run_step :=
  unfold bind, ret, raise, lift, get_uploads, put_uploads, get_db, put_db,
    print, flash, try_except, try_except_else;
  cbn [uploads stdout db flashes fst snd].

Ltac failed_run :=
  intros [= <- <-]; cbn [uploads stdout db flashes];
  repeat (split; [reflexivity|]);
  first [ left; reflexivity
        | right; left; eexists; reflexivity
        | right; right; eexists; reflexivity ].

(** What the [try] suite leaves behind.  When it completes, the raw upload
    is at the temporary path and a JPEG of the target size at the final
    one, and no step failed; when it raises, the directory holds at most
    one or two files more, the temporary one among them. *)
Lemma try_suite_spec env f tmp final tw th w o w' :
  try_suite env f tmp final tw th w = (o, w') ->
  stdout w' = stdout w /\ db w' = db w /\ flashes w' = flashes w /\
  match o with
  | Returned _ =>
      uploads w' = <[final := JpegFile 90 {| width := tw; height := th |}]>
                     (<[tmp := RawUpload (stream f)]> (uploads w)) /\
      save_result env = Written /\ encode_result env = Written /\
      load_ok env = true /\ resample_ok env = true /\
      exists img, stream f = Some img /\
                  returns (new_size (width img) (height img) tw th) = true
  | Raised _ =>
      uploads w' = uploads w \/
      (exists d, uploads w' = <[tmp := d]> (uploads w)) \/
      (exists d, uploads w' = <[final := PartialWrite]> (<[tmp := d]> (uploads w)))
  end.
Proof.
  unfold try_suite, FileStorage_save, write_file.
  destruct (save_result env) as [|[|]] eqn:Hsave; run_step; [|failed_run..].
  unfold Image_open. run_step. rewrite lookup_insert_eq.
  destruct (stream f) as [img|] eqn:Hstream; [|failed_run].
  cbv iota.
  destruct (decompression_bomb (width img) (height img)); run_step; [failed_run|].
  unfold Image_convert. destruct (load_ok env) eqn:Hload; run_step; [|failed_run].
  destruct (new_size (width img) (height img) tw th) as [[nw nh]|e] eqn:Hsize;
    cbn [fst snd]; [|failed_run].
  unfold Image_resize.
  destruct ((nw <? 1) || (nh <? 1)) eqn:Hpos; run_step; [failed_run|].
  destruct (resample_ok env) eqn:Hres; run_step; [|failed_run].
  pose proof (crop_box_size nw nh tw th) as Hbox.
  destruct (crop_box nw nh tw th) as [[[x0 y0] x1] y1].
  destruct Hbox as [Hx Hy].
  unfold Image_crop.
  destruct ((x1 <? x0) || (y1 <? y0)) eqn:Hord; run_step; [failed_run|].
  rewrite Hx, Hy.
  destruct (decompression_bomb tw th); run_step; [failed_run|].
  unfold Image_save. cbn [width height].
  destruct ((tw <? 1) || (th <? 1)); run_step; [failed_run|].
  destruct ((65500 <? tw) || (65500 <? th)); run_step; [failed_run|].
  unfold write_file.
  destruct (encode_result env) as [|[|]] eqn:Henc; run_step; [|failed_run..].
  intros [= <- <-]. cbn [uploads stdout db flashes].
  repeat (split; [reflexivity|]).
  exists img. rewrite Hsize. split; reflexivity.
Qed.

(** The clean-up never raises and removes the file unless [os.remove]
    fails. *)
Lemma remove_tmp_spec env tmp w :
  exists w', remove_tmp env tmp w = (Returned tt, w') /\
    stdout w' = stdout w /\ db w' = db w /\ flashes w' = flashes w /\
    uploads w' = if remove_ok env then delete tmp (uploads w) else uploads w.
Proof.
  unfold remove_tmp, os_path_exists, os_remove. run_step.
  destruct (uploads w !! tmp) as [d|] eqn:Hlook.
  - rewrite bool_decide_eq_true_2 by eauto.
    rewrite Hlook. destruct (remove_ok env); run_step; eauto 10.
  - rewrite bool_decide_eq_false_2 by (intros [? ?]; congruence).
    exists w. repeat split. destruct (remove_ok env); [|reflexivity].
    symmetry. by apply delete_id.
Qed.

(** The whole function on an upload that passes the two guards: the [try]
    suite runs, then the clean-up, and the result is the final name or
    [None] according to whether the suite completed. *)
Lemma save_and_crop_image_spec env upload tw th w :
  PyStr.truthy (filename upload) = true ->
  allowed_file (secure_filename (filename upload)) = true ->
  let name := secure_filename (filename upload) in
  exists o w1 w',
    try_suite env upload (tmp_name_of env name) (unique_name_of env name) tw th w
      = (o, w1) /\
    save_and_crop_image env (Some upload) tw th w
      = (Returned (match o with
                   | Returned _ => Some (unique_name_of env name)
                   | Raised _ => None
                   end), w') /\
    uploads w' = (if remove_ok env then delete (tmp_name_of env name) (uploads w1)
                  else uploads w1) /\
    db w' = db w /\ flashes w' = flashes w /\
    stdout w' = match o with
                | Returned _ => stdout w
                | Raised e => stdout w ++ [ImageProcessingError e]
                end.
Proof.
  intros Hname Hallowed name.
  unfold save_and_crop_image. rewrite Hname, Hallowed. cbn [negb].
  fold name. unfold try_except_else.
  destruct (try_suite env upload (tmp_name_of env name) (unique_name_of env name)
              tw th w) as [o w1] eqn:Hsuite.
  destruct (try_suite_spec _ _ _ _ _ _ _ _ _ Hsuite) as (Hout & Hdb & Hfl & _).
  exists o, w1. destruct o as [[]|e].
  - destruct (remove_tmp_spec env (tmp_name_of env name) w1)
      as (w' & Hrm & Hout' & Hdb' & Hfl' & Hup').
    exists w'. unfold bind at 1. rewrite Hrm. unfold ret.
    repeat split; congruence.
  - unfold bind at 1, print.
    match goal with
    | |- context [bind (remove_tmp env ?t) _ ?x] =>
        destruct (remove_tmp_spec env t x) as (w' & Hrm & Hout' & Hdb' & Hfl' & Hup')
    end.
    cbn [uploads stdout db flashes] in *.
    exists w'. unfold bind at 1. rewrite Hrm. unfold ret.
    repeat split; congruence.
Qed.

(** The function returns, whatever it is given. *)
Lemma save_and_crop_image_returns env file_storage tw th w :
  exists r w', save_and_crop_image env file_storage tw th w = (Returned r, w').
Proof.
  destruct file_storage as [upload|]; [|by eexists _, _].
  destruct (PyStr.truthy (filename upload)) eqn:Hname;
    [|unfold save_and_crop_image; rewrite Hname; by eexists _, _].
  destruct (allowed_file (secure_filename (filename upload))) eqn:Hallowed;
    [|unfold save_and_crop_image; rewrite Hname, Hallowed; by eexists _, _].
  destruct (save_and_crop_image_spec env upload tw th w Hname Hallowed)
    as (o & w1 & w' & _ & Hrun & _).
  eauto.
Qed.

(** With every step in order the function stores the picture. *)
Lemma save_and_crop_image_succeeds env upload img tw th nw nh w :
  PyStr.truthy (filename upload) = true ->
  allowed_file (secure_filename (filename upload)) = true ->
  stream upload = Some img ->
  decompression_bomb (width img) (height img) = false ->
  decompression_bomb tw th = false ->
  new_size (width img) (height img) tw th = Returned (nw, nh) ->
  1 <= nw -> 1 <= nh -> 1 <= tw <= 65500 -> 1 <= th <= 65500 ->
  save_result env = Written -> load_ok env = true ->
  resample_ok env = true -> encode_result env = Written ->
  exists w',
    save_and_crop_image env (Some upload) tw th w
    = (Returned (Some (unique_name_of env (secure_filename (filename upload)))), w').
Proof.
  intros Hname Hallowed Hstream Hbomb Hbox' Hsize Hnw Hnh Htw Hth Hsave Hload Hres Henc.
  destruct (save_and_crop_image_spec env upload tw th w Hname Hallowed)
    as (o & w1 & w' & Hsuite & Hrun & _).
  exists w'. rewrite Hrun. destruct o as [[]|e]; [reflexivity|].
  exfalso. revert Hsuite.
  unfold try_suite, FileStorage_save, write_file. rewrite Hsave. run_step.
  unfold Image_open. run_step. rewrite lookup_insert_eq, Hstream.
  cbv iota. rewrite Hbomb. run_step.
  unfold Image_convert. rewrite Hload. run_step. rewrite Hsize. cbn [fst snd].
  unfold Image_resize.
  replace ((nw <? 1) || (nh <? 1)) with false by lia.
  rewrite Hres. run_step.
  pose proof (crop_box_size nw nh tw th) as Hbox.
  destruct (crop_box nw nh tw th) as [[[x0 y0] x1] y1]. destruct Hbox as [Hx Hy].
  unfold Image_crop.
  replace ((x1 <? x0) || (y1 <? y0)) with false by lia. run_step.
  rewrite Hx, Hy, Hbox'. run_step.
  unfold Image_save. cbn [width height].
  replace ((tw <? 1) || (th <? 1)) with false by lia.
  replace ((65500 <? tw) || (65500 <? th)) with false by lia.
  unfold write_file. rewrite Henc. run_step. discriminate.
Qed.

(** The [try] suite completes exactly when every step is in order and the
    sizes are in range. *)
Lemma try_suite_returns_iff env f tmp final tw th w :
  returns (fst (try_suite env f tmp final tw th w)) = true <->
  save_result env = Written /\ load_ok env = true /\ resample_ok env = true /\
  encode_result env = Written /\ 1 <= tw <= 65500 /\ 1 <= th <= 65500 /\
  decompression_bomb tw th = false /\
  exists img nw nh,
    stream f = Some img /\
    decompression_bomb (width img) (height img) = false /\
    new_size (width img) (height img) tw th = Returned (nw, nh) /\
    1 <= nw /\ 1 <= nh.
Proof.
  unfold try_suite, FileStorage_save, write_file.
  destruct (save_result env) as [|[|]] eqn:Hsave; run_step;
    [|split; [discriminate|intros (? & _); discriminate]..].
  unfold Image_open. run_step. rewrite lookup_insert_eq.
  destruct (stream f) as [img|] eqn:Hstream;
    [|split; [discriminate
             |intros (_ & _ & _ & _ & _ & _ & _ & ? & ? & ? & ? & _); discriminate]].
  cbv iota.
  destruct (decompression_bomb (width img) (height img)) eqn:Hbomb; run_step;
    [split; [discriminate
            |intros (_ & _ & _ & _ & _ & _ & _ & ? & ? & ? & [= <-] & ? & _);
             congruence]|].
  unfold Image_convert. destruct (load_ok env) eqn:Hload; run_step;
    [|split; [discriminate|intros (_ & ? & _); discriminate]].
  destruct (new_size (width img) (height img) tw th) as [[nw nh]|e] eqn:Hsize;
    cbn [fst snd];
    [|split; [discriminate
             |intros (_ & _ & _ & _ & _ & _ & _ & ? & ? & ? & [= <-] & _ & ? & _);
              congruence]].
  unfold Image_resize.
  destruct (Z.ltb_spec nw 1) as [Hnw|Hnw]; cbn [orb]; run_step;
    [split; [discriminate
            |intros (_ & _ & _ & _ & _ & _ & _ & ? & ? & ? & [= <-] & _ & Hs & ? & ?);
             rewrite Hsize in Hs; injection Hs as <- <-; lia]|].
  destruct (Z.ltb_spec nh 1) as [Hnh|Hnh]; run_step;
    [split; [discriminate
            |intros (_ & _ & _ & _ & _ & _ & _ & ? & ? & ? & [= <-] & _ & Hs & ? & ?);
             rewrite Hsize in Hs; injection Hs as <- <-; lia]|].
  destruct (resample_ok env) eqn:Hres; run_step;
    [|split; [discriminate|intros (_ & _ & ? & _); discriminate]].
  pose proof (crop_box_size nw nh tw th) as Hbox.
  destruct (crop_box nw nh tw th) as [[[x0 y0] x1] y1]. destruct Hbox as [Hx Hy].
  unfold Image_crop.
  destruct (Z.ltb_spec x1 x0) as [Hx1|Hx1]; cbn [orb]; run_step;
    [split; [discriminate|intros (_ & _ & _ & _ & ? & _); lia]|].
  destruct (Z.ltb_spec y1 y0) as [Hy1|Hy1]; run_step;
    [split; [discriminate|intros (_ & _ & _ & _ & _ & ? & _); lia]|].
  rewrite Hx, Hy.
  destruct (decompression_bomb tw th) eqn:Hbox; run_step;
    [split; [discriminate|intros (_ & _ & _ & _ & _ & _ & ? & _); discriminate]|].
  unfold Image_save. cbn [width height].
  destruct (Z.ltb_spec tw 1); cbn [orb]; run_step;
    [split; [discriminate|intros (_ & _ & _ & _ & ? & _); lia]|].
  destruct (Z.ltb_spec th 1); run_step;
    [split; [discriminate|intros (_ & _ & _ & _ & _ & ? & _); lia]|].
  destruct (Z.ltb_spec 65500 tw); cbn [orb]; run_step;
    [split; [discriminate|intros (_ & _ & _ & _ & ? & _); lia]|].
  destruct (Z.ltb_spec 65500 th); run_step;
    [split; [discriminate|intros (_ & _ & _ & _ & _ & ? & _); lia]|].
  unfold write_file.
  destruct (encode_result env) as [|[|]] eqn:Henc; run_step;
    [|split; [discriminate|intros (_ & _ & _ & ? & _); discriminate]..].
  split; [intros _|reflexivity].
  repeat (split; [first [reflexivity | lia]|]).
  exists img, nw, nh. repeat split; first [reflexivity | assumption | lia].
Qed.

(** After a save that went through, the temporary file is there when the
    [try] suite ends, however it ends. *)
Lemma try_suite_keeps_tmp env f tmp final tw th w :
  save_result env = Written ->
  is_Some (uploads (snd (try_suite env f tmp final tw th w)) !! tmp).
Proof.
  intros Hsave.
  assert (Htmp : forall d u, is_Some ((<[tmp := d]> u : gmap string FileData) !! tmp))
    by (intros d u; rewrite lookup_insert_eq; eauto).
  assert (Hfinal : forall d d' u,
             is_Some ((<[final := d']> (<[tmp := d]> u) : gmap string FileData) !! tmp))
    by (intros d d' u; apply lookup_insert_is_Some'; right; apply Htmp).
  unfold try_suite, FileStorage_save, write_file. rewrite Hsave. run_step.
  unfold Image_open. run_step. rewrite lookup_insert_eq.
  destruct (stream f) as [img|]; [|apply Htmp].
  cbv iota. destruct (decompression_bomb (width img) (height img)); run_step;
    [apply Htmp|].
  unfold Image_convert. destruct (load_ok env); run_step; [|apply Htmp].
  destruct (new_size (width img) (height img) tw th) as [[nw nh]|e0];
    cbn [fst snd]; [|apply Htmp].
  unfold Image_resize.
  destruct ((nw <? 1) || (nh <? 1)); run_step; [apply Htmp|].
  destruct (resample_ok env); run_step; [|apply Htmp].
  destruct (crop_box nw nh tw th) as [[[x0 y0] x1] y1].
  unfold Image_crop.
  destruct ((x1 <? x0) || (y1 <? y0)); run_step; [apply Htmp|].
  destruct (decompression_bomb (x1 - x0) (y1 - y0)); run_step; [apply Htmp|].
  unfold Image_save. cbn [width height].
  destruct ((x1 - x0 <? 1) || (y1 - y0 <? 1)); run_step; [apply Htmp|].
  destruct ((65500 <? x1 - x0) || (65500 <? y1 - y0)); run_step; [apply Htmp|].
  unfold write_file.
  destruct (encode_result env) as [|[|]]; run_step;
    first [apply Hfinal | apply Htmp].
Qed.

(** ** Names *)

Lemma append_same_length_prefix (a b x y : string) :
  String.length a = String.length b -> a +:+ x = b +:+ y -> a = b.
Proof.
  revert b. induction a as [|c a IH]; intros [|d b] Hlen Heq;
    try discriminate; [reflexivity|].
  cbn in Hlen, Heq. injection Heq as -> Heq. f_equal.
  apply IH; [lia | exact Heq].
Qed.

(** Two different draws of equal length give two different file names. *)
Lemma tmp_name_is_not_final env name :
  String.length (uuid_final env) = String.length (uuid_tmp env) ->
  uuid_final env <> uuid_tmp env ->
  tmp_name_of env name <> unique_name_of env name.
Proof.
  intros Hlen Hne Heq. apply Hne. unfold tmp_name_of, unique_name_of in Heq.
  apply (inj (String.app _)) in Heq. apply (inj (String.app _)) in Heq.
  symmetry. exact (append_same_length_prefix _ _ _ _ (eq_sym Hlen) Heq).
Qed.

(** ** The claims on the pipeline *)

(** C1.  The scaled height of an 873 x 679 picture for the 450 x 350 canvas
    is 349: [679 * (450 / 873)] is the double just below 350 and [int]
    truncates it.  The scaled image is one row shorter than the canvas and
    the crop box starts at row -1, outside of it; the stored file has the
    target size all the same. *)
Theorem scaled_height_below_target :
  PyFloat.truediv 873 679 = PyFloat.truediv 450 350 /\
  new_size 873 679 450 350 = Returned (450, 349) /\
  PyFloat.to_int (PyFloat.int_mul 679 (SFdiv PyFloat.prec PyFloat.emax
                    (PyFloat.of_int 450) (PyFloat.of_int 873))) = Returned 349 /\
  crop_box 450 349 450 350 = (0, -1, 450, 349) /\
  box_within (crop_box 450 349 450 350) 450 349 = false /\
  fst (save_and_crop_image calm_env (Some (picture "photo.png" 873 679)) 450 350
         empty_world)
  = Returned (Some "photo_0123456789abcdef0123456789abcdef.jpg"%string).
Proof. repeat split; vm_compute; reflexivity. Qed.

(** Sanitization of names outside ASCII: an accented letter keeps its
    base letter, a no-break space separates words like a space. *)
Lemma secure_filename_latin1 :
  secure_filename (String "233" ".png") = "e.png"%string /\
  secure_filename ("caf" +:+ String "233" ".png") = "cafe.png"%string /\
  secure_filename ("a.pn" +:+ String "160" "g") = "a.pn_g"%string /\
  allowed_file (secure_filename ("a.pn" +:+ String "160" "g")) = false.
Proof. repeat split; vm_compute; reflexivity. Qed.

(** C3, as amended.  An upload whose sanitized name ([secure_filename] of
    the client's name) has no dot, or whose part after the last dot is not
    one of png, jpg, jpeg, gif up to case, is answered with [None] and the
    world, the upload directory included, is left as it was. *)
Theorem rejected_name_writes_nothing env upload tw th w :
  allowed_file (secure_filename (filename upload)) = false ->
  save_and_crop_image env (Some upload) tw th w = (Returned None, w).
Proof.
  intros Hrejected. unfold save_and_crop_image.
  destruct (PyStr.truthy (filename upload)); [|reflexivity].
  rewrite Hrejected. reflexivity.
Qed.

Lemma rejected_name_writes_nothing_witness :
  save_and_crop_image calm_env (Some (picture "report.pdf" 900 350)) 450 350
    empty_world = (Returned None, empty_world) /\
  secure_filename ("a.pn" +:+ String "160" "g") = "a.pn_g"%string /\
  save_and_crop_image calm_env
    (Some (picture ("a.pn" +:+ String "160" "g") 900 350)) 450 350 empty_world
  = (Returned None, empty_world).
Proof.
  split; [|split].
  - apply (rejected_name_writes_nothing calm_env (picture "report.pdf" 900 350)).
    vm_compute. reflexivity.
  - vm_compute. reflexivity.
  - apply (rejected_name_writes_nothing calm_env
             (picture ("a.pn" +:+ String "160" "g") 900 350)).
    vm_compute. reflexivity.
Defined.

(** C3, as stated, fails: the client's name [photo.png.] ends in a dot, so
    what follows its last dot is empty and not on the list, yet
    sanitization strips the trailing dot before the check and the picture
    is stored. *)
Lemma client_name_is_not_what_is_checked :
  allowed_file "photo.png." = false /\
  PyStr.from (PyStr.rfind dot "photo.png." + 1) "photo.png." = ""%string /\
  secure_filename "photo.png." = "photo.png"%string /\
  fst (save_and_crop_image calm_env (Some (picture "photo.png." 900 350)) 450 350
         empty_world)
  = Returned (Some "photo_0123456789abcdef0123456789abcdef.jpg"%string) /\
  uploads (snd (save_and_crop_image calm_env (Some (picture "photo.png." 900 350))
                  450 350 empty_world))
    !! "photo_0123456789abcdef0123456789abcdef.jpg"%string
  = Some (JpegFile 90 {| width := 450; height := 350 |}) /\
  uploads empty_world !! "photo_0123456789abcdef0123456789abcdef.jpg"%string = None.
Proof. repeat split; vm_compute; reflexivity. Qed.

(** C4, as amended.  The function always returns.  On an upload that
    passes the two guards the removal of the temporary file is attempted
    on every path: the file is gone afterwards when [os.remove] works, and
    stays when it fails, which is swallowed without a line on the log;
    a failed save, an undecodable, oversized or unloadable picture, a
    failed size computation, resize, crop or encode all give [None] and
    one line on the log, and a stored picture gives none. *)
Theorem temp_file_is_removed_silently env file_storage tw th w :
  exists r w',
    save_and_crop_image env file_storage tw th w = (Returned r, w') /\
    forall upload,
      file_storage = Some upload ->
      PyStr.truthy (filename upload) = true ->
      allowed_file (secure_filename (filename upload)) = true ->
      (remove_ok env = true ->
       uploads w' !! tmp_name_of env (secure_filename (filename upload)) = None) /\
      (remove_ok env = false -> save_result env = Written ->
       is_Some (uploads w' !! tmp_name_of env (secure_filename (filename upload)))) /\
      (save_result env <> Written -> r = None) /\
      (stream upload = None -> r = None) /\
      (forall img, stream upload = Some img ->
         decompression_bomb (width img) (height img) = true -> r = None) /\
      (forall img, stream upload = Some img ->
         returns (new_size (width img) (height img) tw th) = false -> r = None) /\
      (load_ok env = false -> r = None) /\
      (resample_ok env = false -> r = None) /\
      (decompression_bomb tw th = true -> r = None) /\
      (encode_result env <> Written -> r = None) /\
      match r with
      | Some _ => stdout w' = stdout w
      | None => exists e, stdout w' = stdout w ++ [ImageProcessingError e]
      end.
Proof.
  destruct file_storage as [upload|]; [|exists None, w; split; [reflexivity|]; discriminate].
  destruct (PyStr.truthy (filename upload)) eqn:Hname;
    [|exists None, w; split;
      [unfold save_and_crop_image; rewrite Hname; reflexivity
      |intros ? [= <-]; congruence]].
  destruct (allowed_file (secure_filename (filename upload))) eqn:Hallowed;
    [|exists None, w; split;
      [unfold save_and_crop_image; rewrite Hname, Hallowed; reflexivity
      |intros ? [= <-]; congruence]].
  destruct (save_and_crop_image_spec env upload tw th w Hname Hallowed)
    as (o & w1 & w' & Hsuite & Hrun & Hup & _ & _ & Hlog).
  eexists _, w'. split; [exact Hrun|].
  intros ? [= <-] _ _.
  split; [intros Hrm; rewrite Hup, Hrm; apply lookup_delete_eq|].
  split.
  { intros Hrm Hsave. rewrite Hup, Hrm.
    pose proof (try_suite_keeps_tmp env upload
                  (tmp_name_of env (secure_filename (filename upload)))
                  (unique_name_of env (secure_filename (filename upload)))
                  tw th w Hsave) as Hkept.
    by rewrite Hsuite in Hkept. }
  pose proof (try_suite_returns_iff env upload
                (tmp_name_of env (secure_filename (filename upload)))
                (unique_name_of env (secure_filename (filename upload)))
                tw th w) as Hiff.
  rewrite Hsuite in Hiff. cbn [fst] in Hiff.
  destruct o as [[]|e].
  - destruct (proj1 Hiff eq_refl)
      as (Hsave & Hload & Hres & Henc & _ & _ & Hbox & img & nw & nh
          & Hstream & Hbomb & Hsize & _).
    repeat split; try congruence.
    intros img' Himg' Hfail. rewrite Hstream in Himg'. injection Himg' as <-.
    rewrite Hsize in Hfail. discriminate Hfail.
  - repeat split; try reflexivity. eauto.
Qed.

Lemma temp_file_is_removed_silently_witness :
  exists r w',
    save_and_crop_image failing_encoder (Some (picture "photo.png" 900 350))
      450 350 empty_world = (Returned r, w') /\
    uploads w' !! tmp_name_of failing_encoder (secure_filename "photo.png") = None /\
    r = None.
Proof.
  destruct (temp_file_is_removed_silently failing_encoder
              (Some (picture "photo.png" 900 350)) 450 350 empty_world)
    as (r & w' & Hrun & Hrest).
  exists r, w'. split; [exact Hrun|].
  destruct (Hrest (picture "photo.png" 900 350) eq_refl eq_refl eq_refl)
    as (Hrm & _ & _ & _ & _ & _ & _ & _ & _ & Henc & _).
  split; [apply Hrm; reflexivity | apply Henc; discriminate].
Defined.

(** C4, as stated, fails where it has the failed removal logged and the
    temporary file removed on every path: with an [os.remove] that fails,
    a picture is stored, its temporary file stays in the upload directory
    and nothing at all is printed ([except Exception: pass]). *)
Lemma failed_removal_is_not_logged :
  fst (save_and_crop_image failing_remove (Some (picture "photo.png" 900 350))
         450 350 empty_world)
  = Returned (Some "photo_0123456789abcdef0123456789abcdef.jpg"%string) /\
  stdout (snd (save_and_crop_image failing_remove (Some (picture "photo.png" 900 350))
                 450 350 empty_world)) = [] /\
  uploads (snd (save_and_crop_image failing_remove (Some (picture "photo.png" 900 350))
                  450 350 empty_world))
    !! "photo_fedcba9876543210fedcba9876543210.png"%string
  = Some (RawUpload (Some {| width := 900; height := 350 |})).
Proof. repeat split; vm_compute; reflexivity. Qed.

(** C7.  A stored name is the sanitized base, an underscore, the first
    draw and [.jpg], whatever the extension of the upload; with two
    distinct draws the file under that name is a JPEG of quality 90 and of
    the target size. *)
Theorem stored_name_and_encoding env upload tw th w name w' :
  save_and_crop_image env (Some upload) tw th w = (Returned (Some name), w') ->
  String.length (uuid_final env) = String.length (uuid_tmp env) ->
  uuid_final env <> uuid_tmp env ->
  name = fst (splitext (secure_filename (filename upload)))
         +:+ "_" +:+ uuid_final env +:+ ".jpg" /\
  uploads w' !! name = Some (JpegFile 90 {| width := tw; height := th |}).
Proof.
  intros Hrun Hlen Hne.
  destruct (PyStr.truthy (filename upload)) eqn:Hname;
    [|unfold save_and_crop_image in Hrun; rewrite Hname in Hrun; discriminate].
  destruct (allowed_file (secure_filename (filename upload))) eqn:Hallowed;
    [|unfold save_and_crop_image in Hrun; rewrite Hname, Hallowed in Hrun;
      discriminate].
  destruct (save_and_crop_image_spec env upload tw th w Hname Hallowed)
    as (o & w1 & w'' & Hsuite & Hrun' & Hup & _).
  rewrite Hrun in Hrun'. destruct o as [[]|e]; [|discriminate].
  injection Hrun' as -> <-. split; [reflexivity|].
  destruct (try_suite_spec _ _ _ _ _ _ _ _ _ Hsuite) as (_ & _ & _ & Hw1 & _).
  pose proof (tmp_name_is_not_final env (secure_filename (filename upload)) Hlen Hne)
    as Hdiff.
  rewrite Hup. destruct (remove_ok env).
  - rewrite lookup_delete_ne by exact Hdiff. rewrite Hw1. apply lookup_insert_eq.
  - rewrite Hw1. apply lookup_insert_eq.
Qed.

Lemma stored_name_and_encoding_witness :
  exists w',
    save_and_crop_image calm_env
      (Some (picture ("Caf" +:+ String "233" " Logo.PNG") 873 679)) 450 350
      empty_world
    = (Returned (Some "Cafe_Logo_0123456789abcdef0123456789abcdef.jpg"%string), w') /\
    uploads w' !! "Cafe_Logo_0123456789abcdef0123456789abcdef.jpg"%string
    = Some (JpegFile 90 {| width := 450; height := 350 |}).
Proof.
  eexists. split; [vm_compute; reflexivity|].
  refine (proj2 (stored_name_and_encoding calm_env
                   (picture ("Caf" +:+ String "233" " Logo.PNG") 873 679)
                   450 350 empty_world _ _ _ _ _)).
  - vm_compute. reflexivity.
  - reflexivity.
  - discriminate.
Defined.

(** ** The form handlers *)

(** The pipeline touches neither the database nor the flashed messages. *)
Lemma save_and_crop_image_frame env file_storage tw th w :
  exists r w',
    save_and_crop_image env file_storage tw th w = (Returned r, w') /\
    db w' = db w /\ flashes w' = flashes w.
Proof.
  destruct file_storage as [upload|]; [|by exists None, w].
  destruct (PyStr.truthy (filename upload)) eqn:Hname;
    [|exists None, w; unfold save_and_crop_image; by rewrite Hname].
  destruct (allowed_file (secure_filename (filename upload))) eqn:Hallowed;
    [|exists None, w; unfold save_and_crop_image; by rewrite Hname, Hallowed].
  destruct (save_and_crop_image_spec env upload tw th w Hname Hallowed)
    as (o & w1 & w' & _ & Hrun & _ & Hdb & Hfl & _).
  eauto.
Qed.

Lemma store_image_frame env image w :
  exists r w',
    store_image env image w = (Returned r, w') /\
    db w' = db w /\ flashes w' = flashes w.
Proof.
  unfold store_image. destruct (image_supplied image).
  - apply save_and_crop_image_frame.
  - by exists None, w.
Qed.

(** A contact form with a blank field: one error message, nothing else. *)
Lemma contact_submit_rejects_blank env req w :
  PyStr.truthy (PyStr.strip (form_get req "full_name"))
  && PyStr.truthy (PyStr.strip (form_get req "email"))
  && PyStr.truthy (PyStr.strip (form_get req "mobile"))
  && PyStr.truthy (PyStr.strip (form_get req "city")) = false ->
  contact_submit env req w
  = (Returned (Redirect "index"),
     {| uploads := uploads w; stdout := stdout w; db := db w;
        flashes := flashes w ++ [("error", "Please fill all contact form fields.")]%string |}).
Proof. intros Hblank. unfold contact_submit. rewrite Hblank. reflexivity. Qed.

Lemma subscribe_rejects_blank env req w :
  PyStr.truthy (PyStr.strip (form_get req "email")) = false ->
  subscribe env req w
  = (Returned (Redirect "index"),
     {| uploads := uploads w; stdout := stdout w; db := db w;
        flashes := flashes w ++ [("error", "Please enter an email address.")]%string |}).
Proof. intros Hblank. unfold subscribe. rewrite Hblank. reflexivity. Qed.

(** A project form with a blank field inserts no row and flashes the error;
    the upload directory and the log are as [store_image] left them. *)
Lemma admin_projects_rejects_blank env req w :
  method req = POST ->
  PyStr.truthy (PyStr.strip (form_get req "name"))
  && PyStr.truthy (PyStr.strip (form_get req "description")) = false ->
  exists filename w1 w',
    store_image env (files_get req "image") w = (Returned filename, w1) /\
    admin_projects env req w
    = (Returned (RenderTemplate
                   (ProjectsPage (order_by_id_desc project_id (projects (db w))))),
       w') /\
    db w' = db w /\
    flashes w' = flashes w
                 ++ [("error", "Please provide project name and description.")]%string /\
    uploads w' = uploads w1 /\ stdout w' = stdout w1.
Proof.
  intros Hpost Hblank.
  destruct (store_image_frame env (files_get req "image") w)
    as (filename & w1 & Hstore & Hdb & Hfl).
  exists filename, w1. eexists. split; [exact Hstore|].
  unfold admin_projects. rewrite Hpost. unfold bind at 1. unfold bind at 1.
  rewrite Hstore, Hblank. cbn [negb]. run_step. rewrite Hdb, Hfl.
  split; [reflexivity|]. cbn [uploads stdout db flashes]. repeat split.
Qed.

(** C5.  A project form whose name is blank and which carries a valid
    picture inserts no row, flashes the error and renders the list, and
    yet leaves a new JPEG in the upload directory: the picture is stored
    before the fields are looked at. *)
Theorem blank_project_still_stores_image :
  let req := {| method := POST;
                form := [("name", "   "); ("description", "Villa")]%string;
                files := [("image"%string, picture "photo.png" 900 350)] |} in
  let run := admin_projects calm_env req empty_world in
  fst run = Returned (RenderTemplate (ProjectsPage [])) /\
  projects (db (snd run)) = [] /\
  flashes (snd run)
  = [("error", "Please provide project name and description.")]%string /\
  uploads empty_world !! "photo_0123456789abcdef0123456789abcdef.jpg"%string = None /\
  uploads (snd run) !! "photo_0123456789abcdef0123456789abcdef.jpg"%string
  = Some (JpegFile 90 {| width := 450; height := 350 |}).
Proof. repeat split; vm_compute; reflexivity. Qed.



(** ** Deletion *)

Lemma find_after_filter {A} (p : A -> bool) (l : list A) :
  List.find p (List.filter (fun x => negb (p x)) l) = None.
Proof.
  induction l as [|x l IH]; [reflexivity|].
  cbn. destruct (p x) eqn:Hp; cbn; [exact IH|]. rewrite Hp. exact IH.
Qed.

(** The best-effort removal of the picture of a row. *)
Lemma remove_image_spec env image_filename w :
  exists w',
    remove_image env image_filename w = (Returned tt, w') /\
    db w' = db w /\ flashes w' = flashes w /\
    match image_filename with
    | None => w' = w
    | Some path =>
        if PyStr.truthy path then
          match uploads w !! path with
          | None => w' = w
          | Some _ =>
              if remove_ok env
              then uploads w' = delete path (uploads w) /\ stdout w' = stdout w
              else uploads w' = uploads w /\
                   stdout w' = stdout w ++ [ErrorDeletingImage OSError]
          end
        else w' = w
    end.
Proof.
  unfold remove_image. destruct image_filename as [path|]; [|by exists w].
  destruct (PyStr.truthy path); [|by exists w].
  unfold os_path_exists, os_remove. run_step.
  destruct (uploads w !! path) as [d|] eqn:Hlook.
  - rewrite bool_decide_eq_true_2 by eauto. rewrite Hlook.
    destruct (remove_ok env); run_step; eexists; (split; [reflexivity|]);
      cbn [uploads stdout db flashes]; auto.
  - rewrite bool_decide_eq_false_2 by (intros [? ?]; congruence).
    by exists w.
Qed.



(** ** Trimming *)

Lemma chars_append (a b : string) :
  PyStr.chars (a +:+ b) = PyStr.chars a ++ PyStr.chars b.
Proof.
  unfold PyStr.chars. induction a as [|c a IH]; [reflexivity|].
  change (String c a +:+ b) with (String c (a +:+ b)).
  cbn [list_ascii_of_string]. rewrite IH. reflexivity.
Qed.

Lemma text_append (a b : list ascii) :
  PyStr.text (a ++ b) = PyStr.text a +:+ PyStr.text b.
Proof.
  unfold PyStr.text. induction a as [|c a IH]; [reflexivity|].
  cbn [app string_of_list_ascii]. rewrite IH. reflexivity.
Qed.

Lemma append_empty_r (s : string) : s +:+ "" = s.
Proof.
  induction s as [|c s IH]; [reflexivity|].
  change (String c s +:+ "") with (String c (s +:+ "")). by rewrite IH.
Qed.

Lemma chars_text (l : list ascii) : PyStr.chars (PyStr.text l) = l.
Proof. apply list_ascii_of_string_of_list_ascii. Qed.

Lemma text_chars (s : string) : PyStr.text (PyStr.chars s) = s.
Proof. apply string_of_list_ascii_of_string. Qed.

Section Strip.

Variable p : ascii -> bool.

Lemma lstrip_by_all (l : list ascii) :
  forallb p l = true -> PyStr.lstrip_by p l = [].
Proof.
  induction l as [|c l IH]; [reflexivity|].
  cbn. intros [Hc Hl]%andb_prop. rewrite Hc. auto.
Qed.

Lemma lstrip_by_app (x r : list ascii) :
  PyStr.lstrip_by p (x ++ r)
  = if forallb p x then PyStr.lstrip_by p r else PyStr.lstrip_by p x ++ r.
Proof.
  induction x as [|c x IH]; [reflexivity|].
  cbn. destruct (p c); [exact IH|reflexivity].
Qed.

(** What is cut on the left is white, and what remains does not start
    white. *)
Lemma lstrip_by_cut (l : list ascii) :
  exists pre, forallb p pre = true /\ l = pre ++ PyStr.lstrip_by p l.
Proof.
  induction l as [|c l (pre & Hpre & Hl)]; [by exists []|].
  cbn. destruct (p c) eqn:Hc; [|by exists []].
  exists (c :: pre). cbn. rewrite Hc, Hpre. split; [reflexivity|].
  by f_equal.
Qed.

Lemma lstrip_by_head (l : list ascii) :
  match PyStr.lstrip_by p l with
  | c :: _ => p c = false
  | [] => True
  end.
Proof.
  induction l as [|c l IH]; [exact I|].
  cbn. destruct (p c) eqn:Hc; [exact IH|exact Hc].
Qed.

Lemma forallb_rev (l : list ascii) : forallb p (rev l) = forallb p l.
Proof.
  induction l as [|c l IH]; [reflexivity|].
  cbn. rewrite forallb_app, IH. cbn. rewrite andb_true_r. apply andb_comm.
Qed.

Lemma rstrip_by_app_blank (x r : list ascii) :
  forallb p r = true -> PyStr.rstrip_by p (x ++ r) = PyStr.rstrip_by p x.
Proof.
  intros Hr. unfold PyStr.rstrip_by.
  rewrite rev_app_distr, lstrip_by_app, forallb_rev, Hr. reflexivity.
Qed.

Lemma strip_by_pad (l x r : list ascii) :
  forallb p l = true -> forallb p r = true ->
  PyStr.strip_by p (l ++ x ++ r) = PyStr.strip_by p x.
Proof.
  intros Hl Hr. unfold PyStr.strip_by.
  rewrite lstrip_by_app, Hl, lstrip_by_app.
  destruct (forallb p x) eqn:Hx.
  - rewrite (lstrip_by_all r Hr), (lstrip_by_all x Hx). reflexivity.
  - by apply rstrip_by_app_blank.
Qed.

End Strip.

(** Padding is invisible to [strip]. *)
Lemma strip_ignores_padding (a b : string) :
  same_but_padding a b -> PyStr.strip a = PyStr.strip b.
Proof.
  intros (l1 & r1 & l2 & r2 & core & Hl1 & Hr1 & Hl2 & Hr2 & -> & ->).
  unfold PyStr.strip, all_space in *. rewrite !chars_append.
  by rewrite !strip_by_pad.
Qed.

(** [strip] cuts white space only, and all of it. *)
Lemma strip_cuts_padding (s : string) :
  same_but_padding s (PyStr.strip s) /\
  match PyStr.chars (PyStr.strip s) with
  | c :: _ => PyStr.isspace c = false
  | [] => True
  end /\
  match rev (PyStr.chars (PyStr.strip s)) with
  | c :: _ => PyStr.isspace c = false
  | [] => True
  end.
Proof.
  unfold PyStr.strip. rewrite chars_text.
  destruct (lstrip_by_cut PyStr.isspace (PyStr.chars s)) as (pre & Hpre & Hs).
  set (m := PyStr.lstrip_by PyStr.isspace (PyStr.chars s)) in *.
  destruct (lstrip_by_cut PyStr.isspace (rev m)) as (post & Hpost & Hm).
  assert (Hm' : m = PyStr.rstrip_by PyStr.isspace m ++ rev post).
  { unfold PyStr.rstrip_by. rewrite <- rev_app_distr, <- Hm.
    by rewrite rev_involutive. }
  split; [|split].
  - exists (PyStr.text pre), (PyStr.text (rev post)), ""%string, ""%string,
      (PyStr.text (PyStr.strip_by PyStr.isspace (PyStr.chars s))).
    unfold all_space. rewrite !chars_text, forallb_rev.
    repeat split; try assumption; try reflexivity.
    + transitivity (PyStr.text (PyStr.chars s)); [symmetry; apply text_chars|].
      rewrite <- !text_append. f_equal. unfold PyStr.strip_by. fold m.
      rewrite Hs at 1. f_equal. exact Hm'.
    + cbn. symmetry. apply append_empty_r.
  - unfold PyStr.strip_by. fold m.
    pose proof (lstrip_by_head PyStr.isspace (PyStr.chars s)) as Hhead. fold m in Hhead.
    destruct (PyStr.rstrip_by PyStr.isspace m) as [|c t] eqn:Hr; [exact I|].
    rewrite Hm' in Hhead. exact Hhead.
  - unfold PyStr.strip_by. fold m. unfold PyStr.rstrip_by.
    rewrite rev_involutive. apply lstrip_by_head.
Qed.

(** C10.  A contact or a subscription that is accepted is stored with the
    stripped form values; [strip] cuts white space only and leaves none at
    either end; two forms whose fields differ only in leading and trailing
    white space run identically, stored row included. *)
Theorem stored_fields_are_trimmed :
  (forall env req w,
      PyStr.truthy (PyStr.strip (form_get req "full_name"))
      && PyStr.truthy (PyStr.strip (form_get req "email"))
      && PyStr.truthy (PyStr.strip (form_get req "mobile"))
      && PyStr.truthy (PyStr.strip (form_get req "city")) = true ->
      exists w',
        contact_submit env req w = (Returned (Redirect "index"), w') /\
        contacts (db w')
        = contacts (db w)
          ++ [{| contact_id := next_id (contacts_seq (db w))
                                 (map contact_id (contacts (db w)));
                 contact_full_name := PyStr.strip (form_get req "full_name");
                 contact_email := PyStr.strip (form_get req "email");
                 contact_mobile := PyStr.strip (form_get req "mobile");
                 contact_city := PyStr.strip (form_get req "city");
                 contact_created_at := utcnow env |}]) /\
  (forall env req w,
      PyStr.truthy (PyStr.strip (form_get req "email")) = true ->
      exists w',
        subscribe env req w = (Returned (Redirect "index"), w') /\
        subscriptions (db w')
        = subscriptions (db w)
          ++ [{| subscription_id := next_id (subscriptions_seq (db w))
                                      (map subscription_id (subscriptions (db w)));
                 subscription_email := PyStr.strip (form_get req "email");
                 subscription_created_at := utcnow env |}]) /\
  (forall s,
      same_but_padding s (PyStr.strip s) /\
      match PyStr.chars (PyStr.strip s) with
      | c :: _ => PyStr.isspace c = false
      | [] => True
      end /\
      match rev (PyStr.chars (PyStr.strip s)) with
      | c :: _ => PyStr.isspace c = false
      | [] => True
      end) /\
  (forall env req1 req2 w,
      same_but_padding (form_get req1 "full_name") (form_get req2 "full_name") ->
      same_but_padding (form_get req1 "email") (form_get req2 "email") ->
      same_but_padding (form_get req1 "mobile") (form_get req2 "mobile") ->
      same_but_padding (form_get req1 "city") (form_get req2 "city") ->
      contact_submit env req1 w = contact_submit env req2 w /\
      subscribe env req1 w = subscribe env req2 w).
Proof.
  split; [|split; [|split]].
  - intros env req w Hfilled. unfold contact_submit. rewrite Hfilled.
    cbn [negb]. run_step. eexists. split; reflexivity.
  - intros env req w Hfilled. unfold subscribe. rewrite Hfilled.
    cbn [negb]. run_step. eexists. split; reflexivity.
  - exact strip_cuts_padding.
  - intros env req1 req2 w Hname Hemail Hmobile Hcity.
    unfold contact_submit, subscribe.
    rewrite (strip_ignores_padding _ _ Hname), (strip_ignores_padding _ _ Hemail),
      (strip_ignores_padding _ _ Hmobile), (strip_ignores_padding _ _ Hcity).
    split; reflexivity.
Qed.

Lemma stored_fields_are_trimmed_witness :
  let plain := {| method := POST;
                  form := [("full_name", "Jane Doe"); ("email", "jane@x.com");
                           ("mobile", "555-0100"); ("city", "Austin")]%string;
                  files := [] |} in
  let padded := {| method := POST;
                   form := [("full_name", "  Jane Doe "); ("email", "jane@x.com ");
                            ("mobile", " 555-0100"); ("city", "Austin")]%string;
                   files := [] |} in
  contact_submit calm_env padded empty_world
  = contact_submit calm_env plain empty_world.
Proof.
  intros plain padded.
  refine (proj1 (proj2 (proj2 (proj2 stored_fields_are_trimmed))
                   calm_env padded plain empty_world _ _ _ _)).
  - exists "  "%string, " "%string, ""%string, ""%string, "Jane Doe"%string.
    repeat split; reflexivity.
  - exists ""%string, " "%string, ""%string, ""%string, "jane@x.com"%string.
    repeat split; reflexivity.
  - exists " "%string, ""%string, ""%string, ""%string, "555-0100"%string.
    repeat split; reflexivity.
  - exists ""%string, ""%string, ""%string, ""%string, "Austin"%string.
    repeat split; reflexivity.
Defined.

(** ** The schema *)

Section SchemaProperties.

Import Schema.

Lemma same_name_refl (name : string) : same_name name name = true.
Proof. apply String.eqb_refl. Qed.

Lemma has_table_app (name : string) (cat more : Catalog) :
  has_table name (cat ++ more) = has_table name cat || has_table name more.
Proof. apply existsb_app. Qed.

Lemma has_table_absent (name : string) (cat : Catalog) :
  has_table name cat = false -> ~ In (fold_case name) (map table_key cat).
Proof.
  unfold has_table. induction cat as [|t cat IH]; [intros _ []|].
  cbn. intros [Ht Hcat]%orb_false_elim [Heq|Hin]; [|by apply IH].
  unfold same_name, table_key in *. rewrite Heq, String.eqb_refl in Ht.
  discriminate.
Qed.

Lemma NoDup_snoc {A} (l : list A) (x : A) :
  NoDup l -> ~ In x l -> NoDup (l ++ [x]).
Proof.
  intros Hl Hx. apply NoDup_app. split; [exact Hl|].
  split; [|apply NoDup_singleton].
  intros y Hy ->%list_elem_of_singleton. apply Hx. by apply list_elem_of_In.
Qed.

(** One [CREATE TABLE IF NOT EXISTS]: no error, the table is there
    afterwards, nothing that was there is touched and no name is taken
    twice. *)
Lemma execute_create_if_not_exists (t : Table) (cat : Catalog) :
  exists cat',
    execute (CREATE_TABLE true t) cat = (Returned tt, cat') /\
    (exists more, cat' = cat ++ more) /\
    has_table (table_name t) cat' = true /\
    (NoDup (map table_key cat) -> NoDup (map table_key cat')).
Proof.
  unfold execute. destruct (has_table (table_name t) cat) eqn:Hhas.
  - exists cat. split; [reflexivity|]. split; [|split; [exact Hhas|auto]].
    exists []. by rewrite app_nil_r.
  - exists (cat ++ [t]). split; [reflexivity|]. split; [|split].
    + by exists [t].
    + rewrite has_table_app. cbn. by rewrite same_name_refl, orb_true_r.
    + intros Hnodup. rewrite map_app. cbn.
      apply NoDup_snoc; [exact Hnodup|]. by apply has_table_absent.
Qed.

Lemma executescript_create_if_not_exists (ts : list Table) (cat : Catalog) :
  exists cat',
    executescript (map (CREATE_TABLE true) ts) cat = (Returned tt, cat') /\
    (exists more, cat' = cat ++ more) /\
    (forall t, In t ts -> has_table (table_name t) cat' = true) /\
    (NoDup (map table_key cat) -> NoDup (map table_key cat')).
Proof.
  revert cat. induction ts as [|t ts IH]; intros cat.
  - exists cat. split; [reflexivity|]. split; [|split].
    + exists []. by rewrite app_nil_r.
    + intros ? [].
    + auto.
  - destruct (execute_create_if_not_exists t cat)
      as (cat1 & Hrun1 & [more1 ->] & Hhas1 & Hnodup1).
    destruct (IH (cat ++ more1)) as (cat2 & Hrun2 & [more2 ->] & Hhas2 & Hnodup2).
    exists ((cat ++ more1) ++ more2). cbn [map executescript].
    rewrite Hrun1. split; [exact Hrun2|]. split; [|split].
    + exists (more1 ++ more2). by rewrite app_assoc.
    + intros t' [<-|Hin]; [|by apply Hhas2].
      rewrite has_table_app, Hhas1. reflexivity.
    + auto.
Qed.

(** When every table of the script is there already, the script changes
    nothing. *)
Lemma executescript_all_present (ts : list Table) (cat : Catalog) :
  (forall t, In t ts -> has_table (table_name t) cat = true) ->
  executescript (map (CREATE_TABLE true) ts) cat = (Returned tt, cat).
Proof.
  induction ts as [|t ts IH]; intros Hall; [reflexivity|].
  cbn [map executescript execute]. rewrite (Hall t) by (by left).
  apply IH. intros t' Hin. apply Hall. by right.
Qed.

End SchemaProperties.

(** C9.  [init_db] never raises; a second run, and any further one, leaves
    the catalog of the first; names that were distinct stay distinct;
    what was in the catalog is kept; the four tables are there afterwards,
    and on a new store they are the catalog. *)
Theorem init_db_idempotent (cat : Schema.Catalog) :
  exists cat1,
    Schema.init_db cat = (Returned tt, cat1) /\
    Schema.init_db cat1 = (Returned tt, cat1) /\
    (forall n, Schema.init_db_times (S n) cat = (Returned tt, cat1)) /\
    (NoDup (map Schema.table_key cat) -> NoDup (map Schema.table_key cat1)) /\
    (exists more, cat1 = cat ++ more) /\
    (forall t, In t Schema.schema_tables ->
               Schema.has_table (Schema.table_name t) cat1 = true) /\
    Schema.init_db [] = (Returned tt, Schema.schema_tables).
Proof.
  destruct (executescript_create_if_not_exists Schema.schema_tables cat)
    as (cat1 & Hrun & Hmore & Hhas & Hnodup).
  assert (Hagain : Schema.init_db cat1 = (Returned tt, cat1))
    by (by apply executescript_all_present).
  exists cat1. unfold Schema.init_db at 1. rewrite Hrun.
  repeat split; auto.
  intros n. cbn [Schema.init_db_times]. unfold Schema.init_db at 1. rewrite Hrun.
  induction n as [|n IH]; [reflexivity|].
  cbn [Schema.init_db_times]. rewrite Hagain. exact IH.
Qed.

(** Without [IF NOT EXISTS] the second run of the script raises. *)
Lemma plain_create_is_not_idempotent :
  Schema.executescript (map (Schema.CREATE_TABLE false) Schema.schema_tables)
    Schema.schema_tables
  = (Raised OperationalError, Schema.schema_tables).
Proof. reflexivity. Qed.

Lemma init_db_idempotent_witness :
  NoDup (map Schema.table_key Schema.schema_tables).
Proof.
  destruct (init_db_idempotent [])
    as (cat1 & Hrun & _ & _ & Hnodup & _ & _ & Hnew).
  rewrite Hnew in Hrun. injection Hrun as <-.
  apply Hnodup. constructor.
Defined.

(* ================================================================== *)
(** * Further properties *)

(** ** The allow-list *)

Ltac each_ascii c := destruct c as [[] [] [] [] [] [] [] []]; vm_compute; reflexivity.

Lemma lower_char_dot (c : ascii) :
  Ascii.eqb (PyStr.lower_char c) dot = Ascii.eqb c dot.
Proof. each_ascii c. Qed.

Lemma lower_char_twice (c : ascii) :
  PyStr.lower_char (PyStr.lower_char c) = PyStr.lower_char c.
Proof. each_ascii c. Qed.

Lemma rfind_from_lower (l : list ascii) (i acc : Z) :
  PyStr.rfind_from dot (map PyStr.lower_char l) i acc = PyStr.rfind_from dot l i acc.
Proof.
  revert i acc. induction l as [|c l IH]; intros i acc; [reflexivity|].
  cbn [map PyStr.rfind_from]. rewrite lower_char_dot. apply IH.
Qed.

Lemma drop_map {A B} (f : A -> B) (n : nat) (l : list A) :
  drop n (map f l) = map f (drop n l).
Proof.
  revert l. induction n as [|n IH]; intros [|x l]; try reflexivity. apply IH.
Qed.

Lemma rfind_from_app (c : ascii) (l1 l2 : list ascii) (i acc : Z) :
  PyStr.rfind_from c (l1 ++ l2) i acc
  = PyStr.rfind_from c l2 (i + Z.of_nat (length l1)) (PyStr.rfind_from c l1 i acc).
Proof.
  revert i acc. induction l1 as [|x l1 IH]; intros i acc.
  - cbn. f_equal. lia.
  - cbn [app PyStr.rfind_from length]. rewrite IH. f_equal. lia.
Qed.

Lemma rfind_from_absent (c : ascii) (l : list ascii) (i acc : Z) :
  ~ In c l -> PyStr.rfind_from c l i acc = acc.
Proof.
  revert i acc. induction l as [|x l IH]; intros i acc Hin; [reflexivity|].
  cbn [PyStr.rfind_from]. destruct (Ascii.eqb_spec x c) as [->|Hne].
  - exfalso. apply Hin. by left.
  - apply IH. intros ?. apply Hin. by right.
Qed.

(** The index found is that of an occurrence, or [-1] carried over. *)
Lemma rfind_from_range (c : ascii) (l : list ascii) (i acc : Z) :
  PyStr.rfind_from c l i acc = acc \/
  i <= PyStr.rfind_from c l i acc < i + Z.of_nat (length l).
Proof.
  revert i acc. induction l as [|x l IH]; intros i acc; [by left|].
  cbn [PyStr.rfind_from length].
  destruct (IH (i + 1) (if Ascii.eqb x c then i else acc)) as [Heq|Hrange].
  - rewrite Heq. destruct (Ascii.eqb x c); [right; lia | by left].
  - right. lia.
Qed.

(** X1.  The extension check does not depend on the case of the name. *)
Theorem allowed_file_ignores_case (s : string) :
  allowed_file (PyStr.lower s) = allowed_file s.
Proof.
  unfold allowed_file, PyStr.rfind, PyStr.from, PyStr.lower.
  rewrite !chars_text, rfind_from_lower, drop_map, map_map.
  rewrite (map_ext _ _ (fun c => lower_char_twice c)). reflexivity.
Qed.

(** X2.  Only what follows the last dot counts: a name [base.ext] whose
    [ext] has no dot is accepted exactly when [ext], in lower case, is on
    the list, whatever [base] holds; a name without a dot is refused. *)
Theorem allowed_file_last_extension :
  (forall base ext,
      ~ In dot (PyStr.chars ext) ->
      allowed_file (base +:+ "." +:+ ext)
      = bool_decide (PyStr.lower ext ∈ ALLOWED_EXTENSIONS)) /\
  (forall s, ~ In dot (PyStr.chars s) -> allowed_file s = false).
Proof.
  split.
  - intros base ext Hext. unfold allowed_file, PyStr.rfind, PyStr.from.
    rewrite !chars_append.
    change (PyStr.chars ".") with [dot].
    rewrite rfind_from_app. cbn [PyStr.rfind_from app].
    rewrite Ascii.eqb_refl, (rfind_from_absent dot _ _ _ Hext).
    rewrite (proj2 (Z.leb_le _ _)) by lia.
    cbn [andb].
    replace (Z.to_nat (0 + Z.of_nat (length (PyStr.chars base)) + 1))
      with (length (PyStr.chars base ++ [dot])) by (rewrite length_app; cbn; lia).
    change (PyStr.chars base ++ dot :: PyStr.chars ext)
      with (PyStr.chars base ++ [dot] ++ PyStr.chars ext).
    rewrite app_assoc, drop_app_length, text_chars. reflexivity.
  - intros s Hs. unfold allowed_file, PyStr.rfind.
    rewrite (rfind_from_absent dot _ _ _ Hs). reflexivity.
Qed.

Lemma allowed_file_last_extension_witness :
  allowed_file ("holiday.exe" +:+ "." +:+ "JpEg") = true /\
  allowed_file "README" = false.
Proof.
  split.
  - rewrite (proj1 allowed_file_last_extension "holiday.exe" "JpEg").
    + vm_compute. reflexivity.
    + vm_compute. intros [H|[H|[H|[H|[]]]]]; discriminate H.
  - apply (proj2 allowed_file_last_extension "README").
    vm_compute. intros [H|[H|[H|[H|[H|[H|[]]]]]]]; discriminate H.
Defined.

(** ** More on the pipeline *)

(** X3.  Whatever happens, the pipeline leaves the database and the
    flashed messages alone, prints at most one line, and changes no file
    of the upload directory other than its temporary and its final one. *)
Theorem pipeline_touches_only_its_two_files env file_storage tw th w :
  let w' := snd (save_and_crop_image env file_storage tw th w) in
  db w' = db w /\ flashes w' = flashes w /\
  (stdout w' = stdout w \/
   exists e, stdout w' = stdout w ++ [ImageProcessingError e]) /\
  forall name,
    (forall upload,
        file_storage = Some upload ->
        name <> tmp_name_of env (secure_filename (filename upload)) /\
        name <> unique_name_of env (secure_filename (filename upload))) ->
    uploads w' !! name = uploads w !! name.
Proof.
  destruct file_storage as [upload|]; [|by cbn; auto].
  destruct (PyStr.truthy (filename upload)) eqn:Hname;
    [|unfold save_and_crop_image; rewrite Hname; by cbn; auto].
  destruct (allowed_file (secure_filename (filename upload))) eqn:Hallowed;
    [|unfold save_and_crop_image; rewrite Hname, Hallowed; by cbn; auto].
  destruct (save_and_crop_image_spec env upload tw th w Hname Hallowed)
    as (o & w1 & w' & Hsuite & Hrun & Hup & Hdb & Hfl & Hlog).
  rewrite Hrun. cbn [snd].
  destruct (try_suite_spec _ _ _ _ _ _ _ _ _ Hsuite) as (_ & _ & _ & Hcase).
  split; [exact Hdb|]. split; [exact Hfl|]. split.
  - destruct o; [by left | right; eauto].
  - intros name Hother. destruct (Hother upload eq_refl) as [Htmp Hfinal].
    assert (Hw1 : uploads w1 !! name = uploads w !! name).
    { destruct o as [[]|e].
      - destruct Hcase as [-> _]. by rewrite !lookup_insert_ne.
      - destruct Hcase as [->|[[d ->]|[d ->]]]; [done|..];
          by rewrite ?lookup_insert_ne. }
    rewrite Hup. destruct (remove_ok env); [|exact Hw1].
    by rewrite lookup_delete_ne.
Qed.

Lemma pipeline_touches_only_its_two_files_witness :
  uploads (snd (save_and_crop_image failing_encoder
                  (Some (picture "photo.png" 900 350)) 450 350 stocked_world))
    !! "villa_0123456789abcdef0123456789abcdef.jpg"%string
  = Some (JpegFile 90 {| width := 450; height := 350 |}).
Proof.
  destruct (pipeline_touches_only_its_two_files failing_encoder
              (Some (picture "photo.png" 900 350)) 450 350 stocked_world)
    as (_ & _ & _ & Hother).
  rewrite Hother; [reflexivity|].
  intros upload [= <-]. split; vm_compute; discriminate.
Defined.

(** X4.  The pipeline answers with a file name exactly when the upload has
    a name that passes the allow-list after sanitization, its bytes decode
    to a picture that Pillow's decompression-bomb check lets through, the
    target box passes that check too, no disk or codec step fails, both
    target sides are between 1 and 65500 and both scaled sides are at
    least 1. *)
Theorem pipeline_succeeds_iff env upload tw th w :
  (exists name, fst (save_and_crop_image env (Some upload) tw th w)
                = Returned (Some name)) <->
  PyStr.truthy (filename upload) = true /\
  allowed_file (secure_filename (filename upload)) = true /\
  save_result env = Written /\ load_ok env = true /\ resample_ok env = true /\
  encode_result env = Written /\ 1 <= tw <= 65500 /\ 1 <= th <= 65500 /\
  decompression_bomb tw th = false /\
  exists img nw nh,
    stream upload = Some img /\
    decompression_bomb (width img) (height img) = false /\
    new_size (width img) (height img) tw th = Returned (nw, nh) /\
    1 <= nw /\ 1 <= nh.
Proof.
  destruct (PyStr.truthy (filename upload)) eqn:Hname;
    [|unfold save_and_crop_image; rewrite Hname;
      split; [intros [? [=]] | intros (? & _); discriminate]].
  destruct (allowed_file (secure_filename (filename upload))) eqn:Hallowed;
    [|unfold save_and_crop_image; rewrite Hname, Hallowed;
      split; [intros [? [=]] | intros (_ & ? & _); discriminate]].
  destruct (save_and_crop_image_spec env upload tw th w Hname Hallowed)
    as (o & w1 & w' & Hsuite & Hrun & _).
  rewrite Hrun. cbn [fst].
  pose proof (try_suite_returns_iff env upload
                (tmp_name_of env (secure_filename (filename upload)))
                (unique_name_of env (secure_filename (filename upload)))
                tw th w) as Hiff.
  rewrite Hsuite in Hiff. cbn [fst] in Hiff.
  split.
  - intros [name Hsome]. destruct o as [[]|e]; [|discriminate].
    split; [reflexivity|]. split; [reflexivity|]. by apply Hiff.
  - intros (_ & _ & Hok). apply Hiff in Hok.
    destruct o as [[]|e]; [eauto|discriminate].
Qed.

Lemma pipeline_succeeds_iff_witness :
  ~ exists name, fst (save_and_crop_image calm_env (Some (picture "photo.png" 20000 10000))
                        450 350 empty_world) = Returned (Some name).
Proof.
  intros Hsome.
  apply (proj1 (pipeline_succeeds_iff calm_env (picture "photo.png" 20000 10000)
                  450 350 empty_world)) in Hsome.
  destruct Hsome as (_ & _ & _ & _ & _ & _ & _ & _ & _ & img & nw & nh & Himg & Hbomb & _).
  injection Himg as <-. vm_compute in Hbomb. discriminate Hbomb.
Defined.

Lemma new_size_zero_division (w h tw th : Z) :
  h = 0 \/ th = 0 -> new_size w h tw th = Raised ZeroDivisionError.
Proof.
  intros Hzero. unfold new_size, PyFloat.truediv.
  destruct (Z.eqb_spec h 0) as [->|Hh]; [reflexivity|].
  destruct Hzero as [?| ->]; [contradiction|]. reflexivity.
Qed.

(** X5.  A picture of height 0 or a target height of 0 makes the ratio
    computation divide by zero: the error is caught, printed as such, the
    answer is [None], and with a working [os.remove] the directory is
    what it was, less whatever file had the temporary name.  A picture
    that [Image.open] refuses as a decompression bomb never reaches the
    division: the line printed is that refusal. *)
Theorem zero_division_is_caught env upload img tw th w :
  PyStr.truthy (filename upload) = true ->
  allowed_file (secure_filename (filename upload)) = true ->
  save_result env = Written -> load_ok env = true ->
  stream upload = Some img ->
  height img = 0 \/ th = 0 ->
  exists w',
    save_and_crop_image env (Some upload) tw th w = (Returned None, w') /\
    stdout w' = stdout w
                ++ [ImageProcessingError
                      (if decompression_bomb (width img) (height img)
                       then DecompressionBombError else ZeroDivisionError)] /\
    (remove_ok env = true ->
     uploads w' = delete (tmp_name_of env (secure_filename (filename upload)))
                    (uploads w)).
Proof.
  intros Hname Hallowed Hsave Hload Hstream Hzero.
  destruct (save_and_crop_image_spec env upload tw th w Hname Hallowed)
    as (o & w1 & w' & Hsuite & Hrun & Hup & _ & _ & Hlog).
  revert Hsuite. unfold try_suite, FileStorage_save, write_file.
  rewrite Hsave. run_step. unfold Image_open. run_step.
  rewrite lookup_insert_eq, Hstream. cbv iota.
  destruct (decompression_bomb (width img) (height img)); run_step.
  - intros [= <- <-]. exists w'. split; [exact Hrun|]. split; [exact Hlog|].
    intros Hrm. rewrite Hup, Hrm. cbn [uploads]. apply delete_insert_eq.
  - unfold Image_convert. rewrite Hload. run_step.
    rewrite (new_size_zero_division _ _ _ _ Hzero).
    intros [= <- <-]. exists w'. split; [exact Hrun|]. split; [exact Hlog|].
    intros Hrm. rewrite Hup, Hrm. cbn [uploads]. apply delete_insert_eq.
Qed.

Lemma zero_division_is_caught_witness :
  exists w',
    save_and_crop_image calm_env (Some (picture "photo.png" 900 350)) 450 0
      empty_world = (Returned None, w') /\
    stdout w' = [ImageProcessingError ZeroDivisionError].
Proof.
  destruct (zero_division_is_caught calm_env (picture "photo.png" 900 350)
              {| width := 900; height := 350 |} 450 0 empty_world
              eq_refl eq_refl eq_refl eq_refl eq_refl (or_intror eq_refl))
    as (w' & Hrun & Hlog & _).
  exists w'. split; [exact Hrun | exact Hlog].
Defined.

(** X6.  The crop is centred: the margin cut on the right (bottom) is the
    one cut on the left (top) or one pixel more; and the box lies inside
    the scaled image exactly when the scaled image is at least as large as
    the target on both sides. *)
Theorem crop_is_centred (nw nh tw th : Z) :
  (let '(x0, y0, x1, y1) := crop_box nw nh tw th in
   0 <= (nw - x1) - x0 <= 1 /\ 0 <= (nh - y1) - y0 <= 1) /\
  (box_within (crop_box nw nh tw th) nw nh = true <-> tw <= nw /\ th <= nh).
Proof.
  pose proof (crop_box_floor nw nh tw th) as Hfloor.
  unfold box_within. unfold crop_box in *. cbv zeta in *.
  set (left := (nw - tw) / 2) in *. set (top := (nh - th) / 2) in *.
  split; [lia|].
  rewrite !andb_true_iff, !Z.leb_le. lia.
Qed.

(** ** Listings *)

Section OrderBy.

Context {A : Type} (key : A -> Z).

Lemma insert_desc_perm (x : A) (l : list A) :
  Permutation (insert_desc key x l) (x :: l).
Proof.
  induction l as [|y l IH]; [reflexivity|].
  cbn. destruct (key y <? key x); [reflexivity|].
  rewrite IH. apply perm_swap.
Qed.

Lemma order_by_id_desc_perm (l : list A) :
  Permutation (order_by_id_desc key l) l.
Proof.
  unfold order_by_id_desc. induction l as [|x l IH]; [reflexivity|].
  cbn. rewrite insert_desc_perm. by constructor.
Qed.

Lemma insert_desc_descending (x : A) (l : list A) :
  descending key l -> descending key (insert_desc key x l).
Proof.
  induction l as [|y l IH]; intros Hl; [by cbn|].
  cbn [insert_desc]. destruct Hl as [Hy Hl].
  destruct (Z.ltb_spec (key y) (key x)) as [Hlt|Hge].
  - cbn. split; [|by split].
    intros z [<-|Hz]; [lia|]. specialize (Hy z Hz). lia.
  - cbn. split; [|by apply IH].
    intros z Hz. apply (Permutation_in _ (insert_desc_perm x l)) in Hz.
    destruct Hz as [<-|Hz]; [lia | by apply Hy].
Qed.

Lemma order_by_id_desc_descending (l : list A) :
  descending key (order_by_id_desc key l).
Proof.
  unfold order_by_id_desc. induction l as [|x l IH]; [exact I|].
  cbn. by apply insert_desc_descending.
Qed.

(** A row whose key is above all the others comes first. *)
Lemma order_by_id_desc_newest (l : list A) (x : A) :
  (forall y, In y l -> key y < key x) ->
  order_by_id_desc key (l ++ [x]) = x :: order_by_id_desc key l.
Proof.
  unfold order_by_id_desc. rewrite foldr_app. cbn [foldr insert_desc].
  generalize (@nil A) as acc.
  induction l as [|y l IH]; intros acc Hall; [reflexivity|].
  cbn [foldr]. rewrite IH by (intros z Hz; apply Hall; by right).
  cbn [insert_desc].
  destruct (Z.ltb_spec (key x) (key y)) as [Hlt|Hge]; [|reflexivity].
  specialize (Hall y (or_introl eq_refl)). lia.
Qed.

End OrderBy.

(** X8.  The listing routes change nothing, and each list they hand to
    the template holds every row of its table once, largest id first. *)
Theorem listings_are_read_only_and_sorted :
  (forall w,
      exists ps cs,
        index w = (Returned (IndexView ps cs), w) /\
        Permutation ps (projects (db w)) /\ descending project_id ps /\
        Permutation cs (clients (db w)) /\ descending client_id cs) /\
  (forall env req w,
      method req = GET ->
      exists ps,
        admin_projects env req w = (Returned (RenderTemplate (ProjectsPage ps)), w) /\
        Permutation ps (projects (db w)) /\ descending project_id ps) /\
  (forall env req w,
      method req = GET ->
      exists cs,
        admin_clients env req w = (Returned (RenderTemplate (ClientsPage cs)), w) /\
        Permutation cs (clients (db w)) /\ descending client_id cs) /\
  (forall w,
      exists rows,
        admin_contacts w = (Returned (ContactsView rows), w) /\
        Permutation rows (contacts (db w)) /\ descending contact_id rows) /\
  (forall w,
      exists rows,
        admin_subscriptions w = (Returned (SubscriptionsView rows), w) /\
        Permutation rows (subscriptions (db w)) /\
        descending subscription_id rows).
Proof.
  repeat split.
  - intros w. eexists _, _. split; [reflexivity|].
    auto using order_by_id_desc_perm, order_by_id_desc_descending.
  - intros env req w Hget. eexists. unfold admin_projects. rewrite Hget.
    split; [reflexivity|].
    auto using order_by_id_desc_perm, order_by_id_desc_descending.
  - intros env req w Hget. eexists. unfold admin_clients. rewrite Hget.
    split; [reflexivity|].
    auto using order_by_id_desc_perm, order_by_id_desc_descending.
  - intros w. eexists. split; [reflexivity|].
    auto using order_by_id_desc_perm, order_by_id_desc_descending.
  - intros w. eexists. split; [reflexivity|].
    auto using order_by_id_desc_perm, order_by_id_desc_descending.
Qed.

Lemma listings_are_read_only_and_sorted_witness :
  exists ps,
    admin_projects calm_env {| method := GET; form := []; files := [] |} stocked_world
    = (Returned (RenderTemplate (ProjectsPage ps)), stocked_world) /\
    Permutation ps (projects (db stocked_world)) /\ descending project_id ps.
Proof.
  exact (proj1 (proj2 listings_are_read_only_and_sorted) calm_env
           {| method := GET; form := []; files := [] |} stocked_world eq_refl).
Defined.

(** ** What each writing route does to the world *)

Lemma admin_projects_post env req w :
  method req = POST ->
  exists filename w1,
    store_image env (files_get req "image") w = (Returned filename, w1) /\
    db w1 = db w /\ flashes w1 = flashes w /\
    admin_projects env req w
    = if PyStr.truthy (PyStr.strip (form_get req "name"))
         && PyStr.truthy (PyStr.strip (form_get req "description"))
      then
        let d := insert_project (PyStr.strip (form_get req "name"))
                   (PyStr.strip (form_get req "description")) filename (db w) in
        (Returned (RenderTemplate (ProjectsPage (order_by_id_desc project_id (projects d)))),
         {| uploads := uploads w1; stdout := stdout w1; db := d;
            flashes := flashes w ++ [("success", "Project added!")]%string |})
      else
        (Returned (RenderTemplate
                     (ProjectsPage (order_by_id_desc project_id (projects (db w))))),
         {| uploads := uploads w1; stdout := stdout w1; db := db w;
            flashes := flashes w
                       ++ [("error", "Please provide project name and description.")]%string |}).
Proof.
  intros Hpost.
  destruct (store_image_frame env (files_get req "image") w)
    as (filename & w1 & Hstore & Hdb & Hfl).
  exists filename, w1. repeat (split; [assumption|]).
  unfold admin_projects. rewrite Hpost. unfold bind at 1. unfold bind at 1.
  rewrite Hstore.
  destruct (PyStr.truthy (PyStr.strip (form_get req "name"))
            && PyStr.truthy (PyStr.strip (form_get req "description")));
    cbn [negb]; run_step; rewrite Hdb, Hfl; reflexivity.
Qed.

Lemma admin_clients_post env req w :
  method req = POST ->
  exists filename w1,
    store_image env (files_get req "image") w = (Returned filename, w1) /\
    db w1 = db w /\ flashes w1 = flashes w /\
    admin_clients env req w
    = if PyStr.truthy (PyStr.strip (form_get req "name"))
         && PyStr.truthy (PyStr.strip (form_get req "designation"))
         && PyStr.truthy (PyStr.strip (form_get req "description"))
      then
        let d := insert_client (PyStr.strip (form_get req "name"))
                   (PyStr.strip (form_get req "designation"))
                   (PyStr.strip (form_get req "description")) filename (db w) in
        (Returned (RenderTemplate (ClientsPage (order_by_id_desc client_id (clients d)))),
         {| uploads := uploads w1; stdout := stdout w1; db := d;
            flashes := flashes w ++ [("success", "Client added!")]%string |})
      else
        (Returned (RenderTemplate
                     (ClientsPage (order_by_id_desc client_id (clients (db w))))),
         {| uploads := uploads w1; stdout := stdout w1; db := db w;
            flashes := flashes w
                       ++ [("error",
                            "Please provide client name, designation and description.")]%string |}).
Proof.
  intros Hpost.
  destruct (store_image_frame env (files_get req "image") w)
    as (filename & w1 & Hstore & Hdb & Hfl).
  exists filename, w1. repeat (split; [assumption|]).
  unfold admin_clients. rewrite Hpost. unfold bind at 1. unfold bind at 1.
  rewrite Hstore.
  destruct (PyStr.truthy (PyStr.strip (form_get req "name"))
            && PyStr.truthy (PyStr.strip (form_get req "designation"))
            && PyStr.truthy (PyStr.strip (form_get req "description")));
    cbn [negb]; run_step; rewrite Hdb, Hfl; reflexivity.
Qed.

Lemma delete_project_run env pid w :
  delete_project env pid w
  = match select_project pid (db w) with
    | None => (Returned (Redirect "admin_projects"), w)
    | Some row =>
        let w1 := snd (remove_image env (project_image_filename row) w) in
        (Returned (Redirect "admin_projects"),
         {| uploads := uploads w1; stdout := stdout w1;
            db := delete_project_row pid (db w);
            flashes := flashes w ++ [("success", "Project deleted.")]%string |})
    end.
Proof.
  unfold delete_project. unfold bind at 1, get_db.
  destruct (select_project pid (db w)) as [row|]; [|reflexivity].
  destruct (remove_image_spec env (project_image_filename row) w)
    as (w1 & Hrm & Hdb & Hfl & _).
  unfold bind at 1. unfold bind at 1. rewrite Hrm. run_step.
  by rewrite Hfl.
Qed.

Lemma delete_client_run env cid w :
  delete_client env cid w
  = match select_client cid (db w) with
    | None => (Returned (Redirect "admin_clients"), w)
    | Some row =>
        let w1 := snd (remove_image env (client_image_filename row) w) in
        (Returned (Redirect "admin_clients"),
         {| uploads := uploads w1; stdout := stdout w1;
            db := delete_client_row cid (db w);
            flashes := flashes w ++ [("success", "Client deleted.")]%string |})
    end.
Proof.
  unfold delete_client. unfold bind at 1, get_db.
  destruct (select_client cid (db w)) as [row|]; [|reflexivity].
  destruct (remove_image_spec env (client_image_filename row) w)
    as (w1 & Hrm & Hdb & Hfl & _).
  unfold bind at 1. unfold bind at 1. rewrite Hrm. run_step.
  by rewrite Hfl.
Qed.

Lemma next_id_above (seq : Z) (ids : list Z) :
  seq < next_id seq ids /\ forall i, In i ids -> i < next_id seq ids.
Proof.
  unfold next_id. induction ids as [|j ids [IHseq IHids]]; cbn.
  - split; [lia|]. intros i [].
  - split; [lia|]. intros i [<-|Hi]; [lia|]. specialize (IHids i Hi). lia.
Qed.

(** X9.  A project that is accepted gets an id above the counter and above
    every id of the table, and heads the list that is rendered, the former
    listing following unchanged. *)
Theorem new_project_is_listed_first env req w :
  method req = POST ->
  PyStr.truthy (PyStr.strip (form_get req "name")) = true ->
  PyStr.truthy (PyStr.strip (form_get req "description")) = true ->
  exists row w',
    admin_projects env req w
    = (Returned (RenderTemplate
                   (ProjectsPage (row :: order_by_id_desc project_id (projects (db w))))),
       w') /\
    projects (db w') = projects (db w) ++ [row] /\
    project_name row = PyStr.strip (form_get req "name") /\
    project_description row = PyStr.strip (form_get req "description") /\
    projects_seq (db w) < project_id row /\
    (forall r, In r (projects (db w)) -> project_id r < project_id row).
Proof.
  intros Hpost Hname Hdesc.
  destruct (admin_projects_post env req w Hpost)
    as (filename & w1 & _ & _ & _ & Hrun).
  rewrite Hname, Hdesc in Hrun. cbn [andb] in Hrun.
  destruct (next_id_above (projects_seq (db w)) (map project_id (projects (db w))))
    as [Hseq Hids].
  assert (Hrows : forall r, In r (projects (db w)) ->
            project_id r < next_id (projects_seq (db w))
                             (map project_id (projects (db w)))).
  { intros r Hr. apply Hids, in_map, Hr. }
  exists {| project_id := next_id (projects_seq (db w))
                            (map project_id (projects (db w)));
            project_name := PyStr.strip (form_get req "name");
            project_description := PyStr.strip (form_get req "description");
            project_image_filename := filename |}.
  eexists. split.
  { rewrite Hrun. unfold insert_project at 1. cbn [projects].
    rewrite order_by_id_desc_newest by exact Hrows. reflexivity. }
  split; [reflexivity|].
  cbn [project_name project_description project_id]. auto.
Qed.

Lemma new_project_is_listed_first_witness :
  let req := {| method := POST;
                form := [("name", "Tower"); ("description", "Glass")]%string;
                files := [] |} in
  exists row w',
    fst (admin_projects calm_env req stocked_world)
    = Returned (RenderTemplate (ProjectsPage (row :: projects (db stocked_world)))) /\
    projects (db w') = projects (db stocked_world) ++ [row] /\
    project_id row = 2.
Proof.
  intros req.
  destruct (new_project_is_listed_first calm_env req stocked_world
              eq_refl eq_refl eq_refl)
    as (row & w' & Hrun & Hrows & _).
  exists row, w'. rewrite Hrun. split; [reflexivity|]. split; [exact Hrows|].
  assert (Hfst : fst (admin_projects calm_env req stocked_world)
                 = Returned (RenderTemplate
                     (ProjectsPage (row :: order_by_id_desc project_id
                                             (projects (db stocked_world))))))
    by (by rewrite Hrun).
  vm_compute in Hfst. injection Hfst as <-. reflexivity.
Defined.

(** ** The public forms *)

Lemma form_get_missing (req : Request) (key : string) :
  multidict_get key (form req) = None ->
  PyStr.truthy (PyStr.strip (form_get req key)) = false.
Proof. intros Hmiss. unfold form_get. rewrite Hmiss. reflexivity. Qed.

Lemma count_snoc {A} (l : list A) (x : A) : count (l ++ [x]) = count l + 1.
Proof. unfold count. rewrite length_app. cbn. lia. Qed.

(** X10.  The contact form always redirects to the landing page and
    flashes one message; it touches neither the upload directory, the log
    nor the other three tables; it adds one contact when the four fields
    are non-empty once stripped and none otherwise, in particular when one
    of the four keys is missing from the form. *)
Theorem contact_submit_effect env req w :
  let w' := snd (contact_submit env req w) in
  let filled := PyStr.truthy (PyStr.strip (form_get req "full_name"))
                && PyStr.truthy (PyStr.strip (form_get req "email"))
                && PyStr.truthy (PyStr.strip (form_get req "mobile"))
                && PyStr.truthy (PyStr.strip (form_get req "city")) in
  fst (contact_submit env req w) = Returned (Redirect "index") /\
  uploads w' = uploads w /\ stdout w' = stdout w /\
  projects (db w') = projects (db w) /\ clients (db w') = clients (db w) /\
  subscriptions (db w') = subscriptions (db w) /\
  (exists message,
      flashes w' = flashes w
                   ++ [(if filled then "success" else "error", message)]%string) /\
  count (contacts (db w')) = count (contacts (db w)) + (if filled then 1 else 0) /\
  (multidict_get "full_name" (form req) = None \/
   multidict_get "email" (form req) = None \/
   multidict_get "mobile" (form req) = None \/
   multidict_get "city" (form req) = None -> filled = false).
Proof.
  cbv zeta. unfold contact_submit.
  destruct (PyStr.truthy (PyStr.strip (form_get req "full_name"))
            && PyStr.truthy (PyStr.strip (form_get req "email"))
            && PyStr.truthy (PyStr.strip (form_get req "mobile"))
            && PyStr.truthy (PyStr.strip (form_get req "city"))) eqn:Hfilled;
    cbn [negb]; run_step.
  - repeat (split; [reflexivity|]). split; [eauto|].
    split; [apply count_snoc|].
    intros Hmiss. rewrite <- Hfilled.
    destruct Hmiss as [H|[H|[H|H]]]; rewrite (form_get_missing _ _ H);
      by rewrite ?andb_false_r.
  - repeat (split; [reflexivity|]). split; [eauto|]. split; [lia|]. reflexivity.
Qed.

Lemma contact_submit_effect_witness :
  let req := {| method := POST;
                form := [("full_name", "Jane Doe"); ("email", "jane@x.com");
                         ("mobile", "555-0100")]%string;
                files := [] |} in
  count (contacts (db (snd (contact_submit calm_env req empty_world)))) = 0.
Proof.
  intros req.
  destruct (contact_submit_effect calm_env req empty_world)
    as (_ & _ & _ & _ & _ & _ & _ & Hcount & Hmiss).
  rewrite Hcount, Hmiss; [reflexivity|]. do 3 right. reflexivity.
Defined.

(** X11.  The subscription form always redirects to the landing page and
    flashes one message; it touches neither the upload directory, the log
    nor the other three tables; it adds one subscription when the e-mail
    is non-empty once stripped and none otherwise, in particular when the
    key is missing. *)
Theorem subscribe_effect env req w :
  let w' := snd (subscribe env req w) in
  let filled := PyStr.truthy (PyStr.strip (form_get req "email")) in
  fst (subscribe env req w) = Returned (Redirect "index") /\
  uploads w' = uploads w /\ stdout w' = stdout w /\
  projects (db w') = projects (db w) /\ clients (db w') = clients (db w) /\
  contacts (db w') = contacts (db w) /\
  (exists message,
      flashes w' = flashes w
                   ++ [(if filled then "success" else "error", message)]%string) /\
  count (subscriptions (db w'))
  = count (subscriptions (db w)) + (if filled then 1 else 0) /\
  (multidict_get "email" (form req) = None -> filled = false).
Proof.
  cbv zeta. unfold subscribe.
  destruct (PyStr.truthy (PyStr.strip (form_get req "email"))) eqn:Hfilled;
    cbn [negb]; run_step.
  - repeat (split; [reflexivity|]). split; [eauto|].
    split; [apply count_snoc|].
    intros Hmiss. rewrite <- Hfilled. by apply form_get_missing.
  - repeat (split; [reflexivity|]). split; [eauto|]. split; [lia|]. reflexivity.
Qed.

Lemma subscribe_effect_witness :
  count (subscriptions
           (db (snd (subscribe calm_env {| method := POST; form := []; files := [] |}
                       empty_world)))) = 0.
Proof.
  destruct (subscribe_effect calm_env {| method := POST; form := []; files := [] |}
              empty_world)
    as (_ & _ & _ & _ & _ & _ & _ & Hcount & Hmiss).
  rewrite Hcount, Hmiss; reflexivity.
Defined.

(** ** Keys *)

Lemma NoDup_map_filter {A} (f : A -> Z) (p : A -> bool) (l : list A) :
  NoDup (map f l) -> NoDup (map f (List.filter p l)).
Proof.
  induction l as [|x l IH]; [auto|].
  cbn. intros [Hx Hl]%NoDup_cons. destruct (p x); [|auto].
  cbn. apply NoDup_cons. split; [|auto].
  rewrite list_elem_of_In in *. intros (y & Hy & Hin)%in_map_iff.
  apply Hx, in_map_iff. exists y. split; [exact Hy|].
  by apply filter_In in Hin as [? _].
Qed.

Lemma NoDup_map_snoc {A} (f : A -> Z) (l : list A) (x : A) :
  NoDup (map f l) -> (forall y, In y l -> f y < f x) -> NoDup (map f (l ++ [x])).
Proof.
  intros Hl Hnew. rewrite map_app. apply NoDup_snoc; [exact Hl|].
  intros (y & Hy & Hin)%in_map_iff. specialize (Hnew y Hin). lia.
Qed.

(** How a call changes the database: not at all, by one insertion or by
    one deletion. *)
Lemma run_call_db env c w :
  db (run_call env c w) = db w \/
  (exists a b c' d t, db (run_call env c w) = insert_contact a b c' d t (db w)) \/
  (exists e t, db (run_call env c w) = insert_subscription e t (db w)) \/
  (exists n d f, db (run_call env c w) = insert_project n d f (db w)) \/
  (exists n g d f, db (run_call env c w) = insert_client n g d f (db w)) \/
  (exists pid, db (run_call env c w) = delete_project_row pid (db w)) \/
  (exists cid, db (run_call env c w) = delete_client_row cid (db w)).
Proof.
  destruct c as [req|req|req|req|pid|cid]; cbn [run_call].
  - unfold contact_submit. destruct (negb _); run_step; [by left|].
    right; left. by eexists _, _, _, _, _.
  - unfold subscribe. destruct (negb _); run_step; [by left|].
    right; right; left. by eexists _, _.
  - destruct (method req) eqn:Hm.
    + left. unfold admin_projects. by rewrite Hm.
    + destruct (admin_projects_post env req w Hm) as (f & w1 & _ & _ & _ & ->).
      destruct (_ && _); cbn [snd db]; [|by left].
      do 3 right; left. by eexists _, _, _.
  - destruct (method req) eqn:Hm.
    + left. unfold admin_clients. by rewrite Hm.
    + destruct (admin_clients_post env req w Hm) as (f & w1 & _ & _ & _ & ->).
      destruct (_ && _); cbn [snd db]; [|by left].
      do 4 right; left. by eexists _, _, _, _.
  - rewrite delete_project_run. destruct (select_project pid (db w)); [|by left].
    do 5 right; left. by eexists.
  - rewrite delete_client_run. destruct (select_client cid (db w)); [|by left].
    do 6 right. by eexists.
Qed.

Ltac above_all l seq f :=
  let Hseq := fresh "Hseq" in
  let Hids := fresh "Hids" in
  destruct (next_id_above seq (map f l)) as [Hseq Hids];
  assert (forall r, In r l -> f r < next_id seq (map f l))
    by (intros ? ?; by apply Hids, in_map).

(** X12.  Whatever the call, no two rows of a table share an id
    afterwards if none did before. *)
Theorem keys_stay_unique env c w :
  keys_unique (db w) -> keys_unique (db (run_call env c w)).
Proof.
  intros (Hp & Hc & Hk & Hs).
  destruct (run_call_db env c w)
    as [->|[(?&?&?&?&?&->)|[(?&?&->)|[(?&?&?&->)|[(?&?&?&?&->)|[(?&->)|(?&->)]]]]]];
    unfold keys_unique; cbn; repeat split; try assumption;
    try (by apply NoDup_map_filter).
  - above_all (contacts (db w)) (contacts_seq (db w)) contact_id.
    by apply (NoDup_map_snoc contact_id).
  - above_all (subscriptions (db w)) (subscriptions_seq (db w)) subscription_id.
    by apply (NoDup_map_snoc subscription_id).
  - above_all (projects (db w)) (projects_seq (db w)) project_id.
    by apply (NoDup_map_snoc project_id).
  - above_all (clients (db w)) (clients_seq (db w)) client_id.
    by apply (NoDup_map_snoc client_id).
Qed.

Lemma keys_stay_unique_witness :
  keys_unique
    (db (run_call calm_env
           (call_admin_projects
              {| method := POST;
                 form := [("name", "Tower"); ("description", "Glass")]%string;
                 files := [] |}) stocked_world)).
Proof.
  apply keys_stay_unique. unfold keys_unique. cbn.
  repeat split; repeat constructor. by intros ?%not_elem_of_nil.
Defined.

(** X13.  Ids are never given twice: if no row is above the counter of its
    table, the same holds after any call, no counter goes down, and a row
    that is in a table after the call either was there before or has an
    id above the former counter. *)
Theorem ids_are_never_reused env c w :
  keys_issued (db w) ->
  let d := db w in
  let d' := db (run_call env c w) in
  keys_issued d' /\
  projects_seq d <= projects_seq d' /\ clients_seq d <= clients_seq d' /\
  contacts_seq d <= contacts_seq d' /\
  subscriptions_seq d <= subscriptions_seq d' /\
  (forall r, In r (projects d') -> In r (projects d) \/ projects_seq d < project_id r) /\
  (forall r, In r (clients d') -> In r (clients d) \/ clients_seq d < client_id r) /\
  (forall r, In r (contacts d') -> In r (contacts d) \/ contacts_seq d < contact_id r) /\
  (forall r, In r (subscriptions d') ->
             In r (subscriptions d) \/ subscriptions_seq d < subscription_id r).
Proof.
  intros (Hp & Hc & Hk & Hs). cbv zeta.
  destruct (run_call_db env c w)
    as [->|[(?&?&?&?&?&->)|[(?&?&->)|[(?&?&?&->)|[(?&?&?&?&->)|[(?&->)|(?&->)]]]]]];
    unfold keys_issued; cbn.
  - repeat split; auto; lia.
  - above_all (contacts (db w)) (contacts_seq (db w)) contact_id.
    repeat split; auto; try lia.
    + intros r [Hr|[<-|[]]]%in_app_iff; [|cbn; lia]. specialize (Hk r Hr). lia.
    + intros r [Hr|[<-|[]]]%in_app_iff; [by left | right; cbn; lia].
  - above_all (subscriptions (db w)) (subscriptions_seq (db w)) subscription_id.
    repeat split; auto; try lia.
    + intros r [Hr|[<-|[]]]%in_app_iff; [|cbn; lia]. specialize (Hs r Hr). lia.
    + intros r [Hr|[<-|[]]]%in_app_iff; [by left | right; cbn; lia].
  - above_all (projects (db w)) (projects_seq (db w)) project_id.
    repeat split; auto; try lia.
    + intros r [Hr|[<-|[]]]%in_app_iff; [|cbn; lia]. specialize (Hp r Hr). lia.
    + intros r [Hr|[<-|[]]]%in_app_iff; [by left | right; cbn; lia].
  - above_all (clients (db w)) (clients_seq (db w)) client_id.
    repeat split; auto; try lia.
    + intros r [Hr|[<-|[]]]%in_app_iff; [|cbn; lia]. specialize (Hc r Hr). lia.
    + intros r [Hr|[<-|[]]]%in_app_iff; [by left | right; cbn; lia].
  - repeat split; auto; try lia.
    + intros r [Hr _]%filter_In. auto.
    + intros r [Hr _]%filter_In. auto.
  - repeat split; auto; try lia.
    + intros r [Hr _]%filter_In. auto.
    + intros r [Hr _]%filter_In. auto.
Qed.

Lemma ids_are_never_reused_witness :
  keys_issued (db (run_call calm_env (call_delete_project 1) stocked_world)) /\
  projects_seq (db stocked_world)
  <= projects_seq (db (run_call calm_env (call_delete_project 1) stocked_world)).
Proof.
  assert (Hissued : keys_issued (db stocked_world)).
  { unfold keys_issued. cbn.
    repeat split; intros r Hr; try contradiction.
    destruct Hr as [<-|[]]. cbn. lia. }
  destruct (ids_are_never_reused calm_env (call_delete_project 1) stocked_world Hissued)
    as (Hafter & Hseq & _).
  split; [exact Hafter | exact Hseq].
Defined.

(** ** Pictures and the rows that refer to them *)

Lemma in_omap {A} (g : A -> option string) (l : list A) (n : string) :
  In n (omap g l) <-> exists x, In x l /\ g x = Some n.
Proof.
  rewrite <- list_elem_of_In, list_elem_of_omap.
  by setoid_rewrite list_elem_of_In.
Qed.

Lemma omap_filter_sublist {A} (g : A -> option string) (p : A -> bool) (l : list A) :
  sublist (omap g (List.filter p l)) (omap g l).
Proof.
  induction l as [|x l IH]; [constructor|].
  cbn [List.filter]. destruct (p x); cbn [omap list_omap]; destruct (g x);
    auto using sublist_skip, sublist_cons.
Qed.

(** What [store_image] does to the directory when its two names are new:
    every file stays, and the name it answers is that of a new file. *)
Lemma store_image_files env image w stored w1 :
  store_image env image w = (Returned stored, w1) ->
  match image with
  | Some upload =>
      let name := secure_filename (filename upload) in
      uploads w !! tmp_name_of env name = None /\
      uploads w !! unique_name_of env name = None /\
      tmp_name_of env name <> unique_name_of env name
  | None => True
  end ->
  (forall n, is_Some (uploads w !! n) -> is_Some (uploads w1 !! n)) /\
  (forall fn, stored = Some fn ->
              is_Some (uploads w1 !! fn) /\ uploads w !! fn = None).
Proof.
  unfold store_image. destruct (image_supplied image) eqn:Hsupplied;
    [|intros [= <- <-] _; split; [auto|discriminate]].
  destruct image as [upload|]; [|discriminate]. cbn in Hsupplied.
  destruct (allowed_file (secure_filename (filename upload))) eqn:Hallowed;
    [|unfold save_and_crop_image; rewrite Hsupplied, Hallowed;
      intros [= <- <-] _; split; [auto|discriminate]].
  destruct (save_and_crop_image_spec env upload 450 350 w Hsupplied Hallowed)
    as (o & ws & w' & Hsuite & Hrun & Hup & _).
  rewrite Hrun. intros [= <- <-] (Htmp & Hfinal & Hdiff).
  destruct (try_suite_spec _ _ _ _ _ _ _ _ _ Hsuite) as (_ & _ & _ & Hcase).
  assert (Hkeep : forall n, is_Some (uploads w !! n) ->
            n <> tmp_name_of env (secure_filename (filename upload)))
    by (intros n [d Hd] ->; congruence).
  assert (Hws : forall n, is_Some (uploads w !! n) -> is_Some (uploads ws !! n)).
  { intros n Hn. destruct o as [[]|e].
    - destruct Hcase as [-> _]. rewrite !lookup_insert_is_Some'. auto.
    - destruct Hcase as [->|[[d ->]|[d ->]]]; rewrite ?lookup_insert_is_Some'; auto. }
  split.
  - intros n Hn. rewrite Hup. destruct (remove_ok env); [|auto].
    apply lookup_delete_is_Some. split; [|auto]. intros Heq. by apply (Hkeep n).
  - intros fn Hfn. destruct o as [[]|e]; [|discriminate]. injection Hfn as <-.
    split; [|exact Hfinal]. rewrite Hup. destruct Hcase as [Hws' _].
    destruct (remove_ok env).
    + apply lookup_delete_is_Some. split; [exact Hdiff|].
      rewrite Hws', lookup_insert_eq. eauto.
    + rewrite Hws', lookup_insert_eq. eauto.
Qed.

(** [remove_image] touches no file but the one it is given. *)
Lemma remove_image_other env image_filename w n :
  image_filename <> Some n ->
  uploads (snd (remove_image env image_filename w)) !! n = uploads w !! n.
Proof.
  intros Hother.
  destruct (remove_image_spec env image_filename w) as (w1 & Hrm & _ & _ & Hcase).
  rewrite Hrm. cbn [snd]. destruct image_filename as [path|]; [|by subst].
  destruct (PyStr.truthy path); [|by subst].
  destruct (uploads w !! path) eqn:Hlook; [|by subst].
  destruct (remove_ok env); destruct Hcase as [-> _]; [|reflexivity].
  apply lookup_delete_ne. congruence.
Qed.

Lemma in_image_names_insert_project n d f db0 name :
  In name (image_names (insert_project n d f db0)) <->
  f = Some name \/ In name (image_names db0).
Proof.
  unfold image_names, insert_project. cbn [projects clients].
  rewrite omap_app, !in_app_iff. cbn. destruct f as [fn|]; cbn; intuition congruence.
Qed.

Lemma in_image_names_insert_client n g d f db0 name :
  In name (image_names (insert_client n g d f db0)) <->
  f = Some name \/ In name (image_names db0).
Proof.
  unfold image_names, insert_client. cbn [projects clients].
  rewrite omap_app, !in_app_iff. cbn. destruct f as [fn|]; cbn; intuition congruence.
Qed.

Lemma NoDup_image_names_insert_project n d f db0 :
  NoDup (image_names db0) ->
  (forall fn, f = Some fn -> ~ In fn (image_names db0)) ->
  NoDup (image_names (insert_project n d f db0)).
Proof.
  intros Hnodup Hnew. unfold image_names, insert_project. cbn [projects clients].
  rewrite omap_app. cbn. destruct f as [fn|]; cbn; [|by rewrite app_nil_r].
  rewrite <- app_assoc. cbn. rewrite <- Permutation_middle.
  apply NoDup_cons. split; [|exact Hnodup].
  rewrite list_elem_of_In. by apply Hnew.
Qed.

Lemma NoDup_image_names_insert_client n g d f db0 :
  NoDup (image_names db0) ->
  (forall fn, f = Some fn -> ~ In fn (image_names db0)) ->
  NoDup (image_names (insert_client n g d f db0)).
Proof.
  intros Hnodup Hnew. unfold image_names, insert_client. cbn [projects clients].
  rewrite omap_app. cbn. destruct f as [fn|]; cbn; [|by rewrite app_nil_r].
  rewrite app_assoc. apply NoDup_snoc; [exact Hnodup|]. by apply Hnew.
Qed.

Lemma filter_drops_middle {A} (p : A -> bool) (l1 l2 : list A) (x : A) :
  p x = false -> List.filter p (l1 ++ x :: l2) = List.filter p l1 ++ List.filter p l2.
Proof. intros Hx. rewrite List.filter_app. cbn. by rewrite Hx. Qed.

Lemma in_omap_filter {A} (g : A -> option string) (p : A -> bool) (l : list A) n :
  In n (omap g (List.filter p l)) -> In n (omap g l).
Proof.
  rewrite !in_omap. intros (x & [Hx _]%filter_In & Hg). eauto.
Qed.

Lemma delete_project_names d pid row :
  select_project pid d = Some row ->
  NoDup (image_names d) ->
  NoDup (image_names (delete_project_row pid d)) /\
  forall n, In n (image_names (delete_project_row pid d)) ->
            In n (image_names d) /\ project_image_filename row <> Some n.
Proof.
  intros Hrow Hnodup. unfold image_names, delete_project_row. cbn [projects clients].
  split.
  - eapply sublist_NoDup; [exact Hnodup|].
    apply sublist_app; [apply omap_filter_sublist | reflexivity].
  - intros n Hn. split.
    { apply in_app_iff in Hn as [Hn|Hn]; apply in_app_iff; [left|by right].
      by apply in_omap_filter in Hn. }
    intros Himg. apply find_some in Hrow as [Hin Hid].
    apply in_split in Hin as (l1 & l2 & Hsplit).
    unfold image_names in Hnodup. rewrite Hsplit in Hnodup, Hn.
    rewrite filter_drops_middle in Hn by (by rewrite Hid).
    rewrite !omap_app in Hnodup, Hn. cbn in Hnodup. rewrite Himg in Hnodup.
    rewrite <- app_assoc in Hnodup. cbn in Hnodup.
    apply NoDup_app in Hnodup as (_ & Hl1 & Hrest).
    apply NoDup_cons in Hrest as [Hrest _].
    rewrite !in_app_iff in Hn. destruct Hn as [[Hn|Hn]|Hn].
    + apply in_omap_filter, list_elem_of_In in Hn.
      apply (Hl1 n Hn). by left.
    + apply in_omap_filter in Hn. apply Hrest, list_elem_of_In, in_app_iff. by left.
    + apply Hrest, list_elem_of_In, in_app_iff. by right.
Qed.

Lemma delete_client_names d cid row :
  select_client cid d = Some row ->
  NoDup (image_names d) ->
  NoDup (image_names (delete_client_row cid d)) /\
  forall n, In n (image_names (delete_client_row cid d)) ->
            In n (image_names d) /\ client_image_filename row <> Some n.
Proof.
  intros Hrow Hnodup. unfold image_names, delete_client_row. cbn [projects clients].
  split.
  - eapply sublist_NoDup; [exact Hnodup|].
    apply sublist_app; [reflexivity | apply omap_filter_sublist].
  - intros n Hn. split.
    { apply in_app_iff in Hn as [Hn|Hn]; apply in_app_iff; [by left|right].
      by apply in_omap_filter in Hn. }
    intros Himg. apply find_some in Hrow as [Hin Hid].
    apply in_split in Hin as (l1 & l2 & Hsplit).
    unfold image_names in Hnodup. rewrite Hsplit in Hnodup, Hn.
    rewrite filter_drops_middle in Hn by (by rewrite Hid).
    rewrite !omap_app in Hnodup, Hn. cbn in Hnodup. rewrite Himg in Hnodup.
    apply NoDup_app in Hnodup as (_ & Hps & Hcs).
    apply NoDup_app in Hcs as (_ & Hl1 & Hrest).
    apply NoDup_cons in Hrest as [Hrest _].
    rewrite !in_app_iff in Hn. destruct Hn as [Hn|[Hn|Hn]].
    + apply list_elem_of_In in Hn. apply (Hps n Hn).
      apply list_elem_of_In, in_app_iff. right. by left.
    + apply in_omap_filter, list_elem_of_In in Hn. apply (Hl1 n Hn). by left.
    + apply in_omap_filter in Hn. by apply Hrest, list_elem_of_In.
Qed.

(** A call with fresh draws keeps the pictures and the rows in step. *)
Lemma run_call_images env c w :
  images_consistent w -> fresh_draws env c w -> images_consistent (run_call env c w).
Proof.
  intros [Hdisk Hnodup] Hfresh.
  destruct c as [req|req|req|req|pid|cid]; cbn [run_call].
  - unfold contact_submit. destruct (negb _); run_step; by split.
  - unfold subscribe. destruct (negb _); run_step; by split.
  - destruct (method req) eqn:Hm;
      [unfold admin_projects; rewrite Hm; by split|].
    destruct (admin_projects_post env req w Hm)
      as (f & w1 & Hstore & _ & _ & ->).
    destruct (store_image_files _ _ _ _ _ Hstore Hfresh) as [Hkeep Hnew].
    destruct (_ && _); cbn [snd]; (split; cbn [uploads db]); auto.
    + intros name [Hf|Hname]%in_image_names_insert_project; [|auto].
      by apply Hnew.
    + apply NoDup_image_names_insert_project; [exact Hnodup|].
      intros fn Hf Hin. destruct (Hnew fn Hf) as [_ Hnone].
      destruct (Hdisk fn Hin) as [? ?]. congruence.
  - destruct (method req) eqn:Hm;
      [unfold admin_clients; rewrite Hm; by split|].
    destruct (admin_clients_post env req w Hm)
      as (f & w1 & Hstore & _ & _ & ->).
    destruct (store_image_files _ _ _ _ _ Hstore Hfresh) as [Hkeep Hnew].
    destruct (_ && _); cbn [snd]; (split; cbn [uploads db]); auto.
    + intros name [Hf|Hname]%in_image_names_insert_client; [|auto].
      by apply Hnew.
    + apply NoDup_image_names_insert_client; [exact Hnodup|].
      intros fn Hf Hin. destruct (Hnew fn Hf) as [_ Hnone].
      destruct (Hdisk fn Hin) as [? ?]. congruence.
  - rewrite delete_project_run.
    destruct (select_project pid (db w)) as [row|] eqn:Hrow; [|by split].
    destruct (delete_project_names _ _ _ Hrow Hnodup) as [Hnodup' Hnames].
    cbn [snd]. split; cbn [uploads db]; [|exact Hnodup'].
    intros n [Hn Hother]%Hnames. rewrite remove_image_other by exact Hother. auto.
  - rewrite delete_client_run.
    destruct (select_client cid (db w)) as [row|] eqn:Hrow; [|by split].
    destruct (delete_client_names _ _ _ Hrow Hnodup) as [Hnodup' Hnames].
    cbn [snd]. split; cbn [uploads db]; [|exact Hnodup'].
    intros n [Hn Hother]%Hnames. rewrite remove_image_other by exact Hother. auto.
Qed.

(** X14.  In every world the site can reach with fresh draws, each file
    name that a project or a client refers to is a file of the upload
    directory, and no two rows refer to the same file. *)
Theorem referenced_images_exist (w : World) :
  reachable w -> images_consistent w.
Proof.
  induction 1 as [|env c w Hw IH Hfresh].
  - split; [intros ? []|constructor].
  - by apply run_call_images.
Qed.

Lemma referenced_images_exist_witness :
  images_consistent
    (run_call calm_env (call_delete_client 7)
       (run_call calm_env
          (call_admin_projects
             {| method := POST;
                form := [("name", "Tower"); ("description", "Glass")]%string;
                files := [("image"%string, picture "tower.gif" 640 480)] |})
          empty_world)).
Proof.
  apply referenced_images_exist.
  apply reachable_call; [|exact I].
  apply reachable_call; [apply reachable_new|].
  cbn. repeat split; vm_compute; congruence.
Defined.

(** X15.  Deleting the same id a second time finds no row: the world is
    left as the first deletion made it and nothing is flashed. *)
Theorem second_delete_is_a_no_op env env' (id : Z) (w : World) :
  delete_project env' id (snd (delete_project env id w))
  = (Returned (Redirect "admin_projects"), snd (delete_project env id w)) /\
  delete_client env' id (snd (delete_client env id w))
  = (Returned (Redirect "admin_clients"), snd (delete_client env id w)).
Proof.
  split.
  - rewrite (delete_project_run env' id). rewrite (delete_project_run env id w).
    destruct (select_project id (db w)) as [row|] eqn:Hrow; cbn [snd db].
    + unfold select_project, delete_project_row. cbn [projects].
      by rewrite find_after_filter.
    + by rewrite Hrow.
  - rewrite (delete_client_run env' id). rewrite (delete_client_run env id w).
    destruct (select_client id (db w)) as [row|] eqn:Hrow; cbn [snd db].
    + unfold select_client, delete_client_row. cbn [clients].
      by rewrite find_after_filter.
    + by rewrite Hrow.
Qed.

(** ** Adding a project and deleting it again *)

(** Unless the encoder leaves half a file behind, a [try] suite that
    raises has written nothing but, possibly, the temporary file. *)
Lemma try_suite_raised_files env f tmp final tw th w e w' :
  try_suite env f tmp final tw th w = (Raised e, w') ->
  encode_result env <> WriteFailed true ->
  uploads w' = uploads w \/ exists d, uploads w' = <[tmp := d]> (uploads w).
Proof.
  intros Hsuite Hclean. revert Hsuite.
  unfold try_suite, FileStorage_save, write_file.
  destruct (save_result env) as [|[|]]; run_step;
    [|intros [= <- <-]; cbn [uploads]; eauto..].
  unfold Image_open. run_step. rewrite lookup_insert_eq.
  destruct (stream f) as [img|]; [|intros [= <- <-]; cbn [uploads]; eauto].
  cbv iota. destruct (decompression_bomb (width img) (height img)); run_step;
    [intros [= <- <-]; cbn [uploads]; eauto|].
  unfold Image_convert. destruct (load_ok env); run_step;
    [|intros [= <- <-]; cbn [uploads]; eauto].
  destruct (new_size (width img) (height img) tw th) as [[nw nh]|e0];
    cbn [fst snd]; [|intros [= <- <-]; cbn [uploads]; eauto].
  unfold Image_resize.
  destruct ((nw <? 1) || (nh <? 1)); run_step;
    [intros [= <- <-]; cbn [uploads]; eauto|].
  destruct (resample_ok env); run_step; [|intros [= <- <-]; cbn [uploads]; eauto].
  destruct (crop_box nw nh tw th) as [[[x0 y0] x1] y1].
  unfold Image_crop.
  destruct ((x1 <? x0) || (y1 <? y0)); run_step;
    [intros [= <- <-]; cbn [uploads]; eauto|].
  destruct (decompression_bomb (x1 - x0) (y1 - y0)); run_step;
    [intros [= <- <-]; cbn [uploads]; eauto|].
  unfold Image_save. cbn [width height].
  destruct ((x1 - x0 <? 1) || (y1 - y0 <? 1)); run_step;
    [intros [= <- <-]; cbn [uploads]; eauto|].
  destruct ((65500 <? x1 - x0) || (65500 <? y1 - y0)); run_step;
    [intros [= <- <-]; cbn [uploads]; eauto|].
  unfold write_file.
  destruct (encode_result env) as [|[|]]; run_step;
    [discriminate|congruence|intros [= <- <-]; cbn [uploads]; eauto].
Qed.

Lemma truthy_append_r (a b : string) :
  PyStr.truthy b = true -> PyStr.truthy (a +:+ b) = true.
Proof. destruct a; [auto|reflexivity]. Qed.

Lemma truthy_unique_name env name : PyStr.truthy (unique_name_of env name) = true.
Proof. unfold unique_name_of. apply truthy_append_r. reflexivity. Qed.

(** With fresh names, a working [os.remove] and no half-written JPEG, the
    directory after [store_image] is the one before, plus the stored
    picture if there is one. *)
Lemma store_image_uploads env image w stored w1 :
  store_image env image w = (Returned stored, w1) ->
  match image with
  | Some upload =>
      let name := secure_filename (filename upload) in
      uploads w !! tmp_name_of env name = None /\
      uploads w !! unique_name_of env name = None /\
      tmp_name_of env name <> unique_name_of env name
  | None => True
  end ->
  remove_ok env = true ->
  encode_result env <> WriteFailed true ->
  match stored with
  | Some fn =>
      uploads w1 = <[fn := JpegFile 90 {| width := 450; height := 350 |}]> (uploads w) /\
      PyStr.truthy fn = true /\ uploads w !! fn = None
  | None => uploads w1 = uploads w
  end.
Proof.
  unfold store_image. destruct (image_supplied image) eqn:Hsupplied;
    [|by intros [= <- <-]].
  destruct image as [upload|]; [|discriminate]. cbn in Hsupplied.
  destruct (allowed_file (secure_filename (filename upload))) eqn:Hallowed;
    [|unfold save_and_crop_image; rewrite Hsupplied, Hallowed; by intros [= <- <-]].
  destruct (save_and_crop_image_spec env upload 450 350 w Hsupplied Hallowed)
    as (o & ws & w' & Hsuite & Hrun & Hup & _).
  rewrite Hrun. intros [= <- <-] (Htmp & Hfinal & Hdiff) Hrm Hclean.
  rewrite Hrm in Hup. rewrite Hup. destruct o as [[]|e].
  - destruct (try_suite_spec _ _ _ _ _ _ _ _ _ Hsuite) as (_ & _ & _ & -> & _).
    split; [|split; [apply truthy_unique_name | exact Hfinal]].
    rewrite delete_insert_ne by exact Hdiff.
    rewrite delete_insert_eq. by rewrite delete_id.
  - destruct (try_suite_raised_files _ _ _ _ _ _ _ _ _ Hsuite Hclean) as [->|[d ->]].
    + by apply delete_id.
    + rewrite delete_insert_eq. by apply delete_id.
Qed.

Lemma find_snoc_new {A} (p : A -> bool) (l : list A) (x : A) :
  (forall y, In y l -> p y = false) -> p x = true ->
  List.find p (l ++ [x]) = Some x.
Proof.
  intros Hold Hx. induction l as [|y l IH]; [cbn; by rewrite Hx|].
  cbn. rewrite (Hold y) by (by left). apply IH. intros z Hz. apply Hold. by right.
Qed.

Lemma filter_snoc_new {A} (p : A -> bool) (l : list A) (x : A) :
  (forall y, In y l -> p y = true) -> p x = false ->
  List.filter p (l ++ [x]) = l.
Proof.
  intros Hold Hx. rewrite List.filter_app. cbn. rewrite Hx, app_nil_r.
  induction l as [|y l IH]; [reflexivity|].
  cbn. rewrite (Hold y) by (by left). f_equal. apply IH.
  intros z Hz. apply Hold. by right.
Qed.

(** X16.  Adding a project and then deleting the id it was given brings
    the four tables and the upload directory back to what they were,
    provided the two names drawn were fresh, [os.remove] works and the
    encoder leaves no half-written file. *)
Theorem add_then_delete_restores env env' req w :
  method req = POST ->
  PyStr.truthy (PyStr.strip (form_get req "name")) = true ->
  PyStr.truthy (PyStr.strip (form_get req "description")) = true ->
  fresh_draws env (call_admin_projects req) w ->
  remove_ok env = true -> remove_ok env' = true ->
  encode_result env <> WriteFailed true ->
  let w1 := snd (admin_projects env req w) in
  exists row,
    projects (db w1) = projects (db w) ++ [row] /\
    let w2 := snd (delete_project env' (project_id row) w1) in
    projects (db w2) = projects (db w) /\ clients (db w2) = clients (db w) /\
    contacts (db w2) = contacts (db w) /\
    subscriptions (db w2) = subscriptions (db w) /\
    uploads w2 = uploads w.
Proof.
  intros Hpost Hname Hdesc Hfresh Hrm Hrm' Hclean. cbv zeta.
  destruct (admin_projects_post env req w Hpost)
    as (f & ws & Hstore & _ & _ & Hrun).
  rewrite Hname, Hdesc in Hrun. cbn [andb] in Hrun. cbv zeta in Hrun.
  rewrite Hrun. cbn [snd].
  pose proof (store_image_uploads _ _ _ _ _ Hstore Hfresh Hrm Hclean) as Hfiles.
  destruct (next_id_above (projects_seq (db w)) (map project_id (projects (db w))))
    as [_ Hids].
  set (new := next_id (projects_seq (db w)) (map project_id (projects (db w)))) in *.
  set (d1 := insert_project (PyStr.strip (form_get req "name"))
               (PyStr.strip (form_get req "description")) f (db w)) in *.
  assert (Hold : forall r, In r (projects (db w)) -> (project_id r =? new) = false).
  { intros r Hr. apply Z.eqb_neq. specialize (Hids _ (in_map project_id _ _ Hr)). lia. }
  exists {| project_id := new;
            project_name := PyStr.strip (form_get req "name");
            project_description := PyStr.strip (form_get req "description");
            project_image_filename := f |}.
  split; [reflexivity|]. cbn [project_id db].
  assert (Hsel : select_project new d1
                 = Some {| project_id := new;
                           project_name := PyStr.strip (form_get req "name");
                           project_description := PyStr.strip (form_get req "description");
                           project_image_filename := f |}).
  { unfold select_project, d1, insert_project. cbn [projects]. fold new.
    apply find_snoc_new; [exact Hold | apply Z.eqb_refl]. }
  assert (Hrows : projects (delete_project_row new d1) = projects (db w)).
  { unfold delete_project_row, d1, insert_project. cbn [projects]. fold new.
    apply filter_snoc_new; [|cbn; by rewrite Z.eqb_refl].
    intros r Hr. by rewrite (Hold r Hr). }
  rewrite delete_project_run. cbn [db]. rewrite Hsel.
  cbn [snd db uploads project_image_filename].
  split; [exact Hrows|]. repeat (split; [reflexivity|]).
  match goal with
  | |- uploads (snd (remove_image env' ?i ?x)) = _ =>
      destruct (remove_image_spec env' i x) as (w2 & Hrun2 & _ & _ & Hcase)
  end.
  rewrite Hrun2. cbn [snd].
  destruct f as [fn|].
  - destruct Hfiles as (Hws & Htruthy & Hnone).
    rewrite Htruthy in Hcase. cbn [uploads] in Hcase.
    rewrite Hws, lookup_insert_eq, Hrm' in Hcase.
    destruct Hcase as [-> _]. rewrite delete_insert_eq. by apply delete_id.
  - subst w2. exact Hfiles.
Qed.

Lemma add_then_delete_restores_witness :
  let req := {| method := POST;
                form := [("name", "Tower"); ("description", "Glass")]%string;
                files := [("image"%string, picture "tower.gif" 640 480)] |} in
  exists row,
    projects (db (snd (admin_projects calm_env req stocked_world)))
    = projects (db stocked_world) ++ [row] /\
    uploads (snd (delete_project calm_env (project_id row)
                    (snd (admin_projects calm_env req stocked_world))))
    = uploads stocked_world.
Proof.
  intros req.
  assert (Hfresh : fresh_draws calm_env (call_admin_projects req) stocked_world)
    by (cbn; repeat split; vm_compute; congruence).
  destruct (add_then_delete_restores calm_env calm_env req stocked_world
              eq_refl eq_refl eq_refl Hfresh eq_refl eq_refl ltac:(discriminate))
    as (row & Hrows & _ & _ & _ & _ & Hfiles).
  exists row. split; [exact Hrows | exact Hfiles].
Defined.

(** ** The dashboard *)





(** ** More on the schema *)

Lemma has_table_app_false (name : string) (cat more : Schema.Catalog) :
  Schema.has_table name (cat ++ more) = false -> Schema.has_table name cat = false.
Proof. rewrite has_table_app. by intros [? _]%orb_false_elim. Qed.

Lemma executescript_appends (ts : list Schema.Table) (cat : Schema.Catalog) :
  exists more,
    snd (Schema.executescript (map (Schema.CREATE_TABLE true) ts) cat) = cat ++ more /\
    sublist more ts /\
    forall t, In t more -> Schema.has_table (Schema.table_name t) cat = false.
Proof.
  revert cat. induction ts as [|t ts IH]; intros cat.
  - exists []. cbn. rewrite app_nil_r. repeat split; [constructor|intros ? []].
  - cbn [map Schema.executescript Schema.execute].
    destruct (Schema.has_table (Schema.table_name t) cat) eqn:Hhas.
    + destruct (IH cat) as (more & Hrun & Hsub & Hnew).
      exists more. repeat split; auto using sublist_cons.
    + destruct (IH (cat ++ [t])) as (more & Hrun & Hsub & Hnew).
      exists (t :: more). rewrite Hrun, <- app_assoc. repeat split.
      * by apply sublist_skip.
      * intros t' [<-|Hin]; [exact Hhas|].
        eapply has_table_app_false. by apply Hnew.
Qed.

(** X18.  [init_db] keeps the catalog it finds as it is and appends, in
    the order of the script, only tables of the script whose name, up to
    case, the catalog did not have. *)
Theorem init_db_only_adds_missing_tables (cat : Schema.Catalog) :
  exists more,
    snd (Schema.init_db cat) = cat ++ more /\
    sublist more Schema.schema_tables /\
    forall t, In t more -> Schema.has_table (Schema.table_name t) cat = false.
Proof. apply executescript_appends. Qed.

Lemma init_db_only_adds_missing_tables_witness :
  let legacy := {| Schema.table_name := "Projects";
                   Schema.columns := [Schema.id_column] |} in
  snd (Schema.init_db [legacy])
  = [legacy; Schema.clients_table; Schema.contacts_table; Schema.subscriptions_table].
Proof.
  intros legacy.
  destruct (init_db_only_adds_missing_tables [legacy]) as (more & Hrun & _ & Hnew).
  rewrite Hrun. vm_compute in Hrun. injection Hrun as <-. reflexivity.
Defined.

(** ** More on the admin forms *)

(** X20.  The admin forms store stripped text as the public ones do: two
    requests with the same method and the same files whose text fields
    differ only in leading and trailing white space run identically. *)
Theorem admin_forms_ignore_padding env req1 req2 w :
  method req1 = method req2 ->
  files req1 = files req2 ->
  same_but_padding (form_get req1 "name") (form_get req2 "name") ->
  same_but_padding (form_get req1 "designation") (form_get req2 "designation") ->
  same_but_padding (form_get req1 "description") (form_get req2 "description") ->
  admin_projects env req1 w = admin_projects env req2 w /\
  admin_clients env req1 w = admin_clients env req2 w.
Proof.
  intros Hmethod Hfiles Hname Hdesig Hdesc.
  unfold admin_projects, admin_clients, files_get.
  rewrite Hmethod, Hfiles.
  rewrite (strip_ignores_padding _ _ Hname), (strip_ignores_padding _ _ Hdesig),
    (strip_ignores_padding _ _ Hdesc).
  split; reflexivity.
Qed.

Lemma admin_forms_ignore_padding_witness :
  let padded := {| method := POST;
                   form := [("name", " Tower  "); ("description", "Glass ")]%string;
                   files := [] |} in
  let plain := {| method := POST;
                  form := [("name", "Tower"); ("description", "Glass")]%string;
                  files := [] |} in
  admin_projects calm_env padded empty_world = admin_projects calm_env plain empty_world.
Proof.
  intros padded plain.
  refine (proj1 (admin_forms_ignore_padding calm_env padded plain empty_world
                   eq_refl eq_refl _ _ _)).
  - exists " "%string, "  "%string, ""%string, ""%string, "Tower"%string.
    repeat split; reflexivity.
  - exists ""%string, ""%string, ""%string, ""%string, ""%string.
    repeat split; reflexivity.
  - exists ""%string, " "%string, ""%string, ""%string, "Glass"%string.
    repeat split; reflexivity.
Defined.

(** X21.  When the pipeline answers [None] for an upload that passed the
    two guards, [os.remove] works and the encoder left no half-written
    file, the upload directory is what it was before the call, less
    whatever file had the temporary name: nothing of the failed run
    stays on disk. *)
Theorem failed_run_leaves_no_file env upload tw th w w' :
  PyStr.truthy (filename upload) = true ->
  allowed_file (secure_filename (filename upload)) = true ->
  save_and_crop_image env (Some upload) tw th w = (Returned None, w') ->
  remove_ok env = true ->
  encode_result env <> WriteFailed true ->
  uploads w' = delete (tmp_name_of env (secure_filename (filename upload))) (uploads w).
Proof.
  intros Hname Hallowed Hrun Hrm Hclean.
  destruct (save_and_crop_image_spec env upload tw th w Hname Hallowed)
    as (o & ws & w'' & Hsuite & Hrun' & Hup & _).
  rewrite Hrun in Hrun'. destruct o as [[]|e]; [discriminate|].
  injection Hrun' as <-. rewrite Hup, Hrm.
  destruct (try_suite_raised_files _ _ _ _ _ _ _ _ _ Hsuite Hclean) as [->|[d ->]];
    [reflexivity|]. apply delete_insert_eq.
Qed.

Lemma failed_run_leaves_no_file_witness :
  uploads (snd (save_and_crop_image calm_env (Some (picture "photo.png" 900 350))
                  450 0 stocked_world))
  = delete (tmp_name_of calm_env (secure_filename "photo.png")) (uploads stocked_world).
Proof.
  refine (failed_run_leaves_no_file calm_env (picture "photo.png" 900 350) 450 0
            stocked_world _ eq_refl eq_refl _ eq_refl _).
  - vm_compute. reflexivity.
  - discriminate.
Defined.

Lemma crop_is_centred_witness :
  box_within (crop_box 622 350 450 350) 622 350 = true.
Proof.
  apply (proj2 (crop_is_centred 622 350 450 350)). lia.
Defined.
